(** * Certificate backend (app.py): request handlers over the certificates table

    A shallow embedding of the three API handlers of [app.py]
    ([add_certificate], [add_bulk_certificates], [get_certificate]) as
    computations over the [certificates] table, and the properties of the
    specification that concern them.

    Conventions.
    - A JSON object is a finite map from keys to values ([gmap string _]);
      [request.get_json()] yields [None] for a JSON [null] body.
    - The handlers come twice.  [add_certificate] and
      [add_bulk_certificates] take the bodies of the interface table: null or
      an object, with string fields (and, for the bulk route, lists of such
      objects).  [Py.add_certificate] and [Py.add_bulk_certificates] take any
      JSON value and follow the Python text on it; on the bodies of the first
      kind the two agree ([add_certificate_json],
      [add_bulk_certificates_json]).
    - The table is the list of committed rows in insertion order.  The column
      declaration [code = db.Column(db.String(10), unique=True, ...)] is the
      uniqueness constraint checked by every INSERT; SQLite does not enforce
      the declared lengths.
    - An exception that no handler catches ends the request with status 500;
      the session is discarded, so nothing of an unfinished write remains. *)

From Stdlib Require Import Ascii.
From stdpp Require Import base strings list gmap pretty.

Open Scope string_scope.
Open Scope list_scope.

(** ** The model class ([class Certificate(db.Model)], lines 32-37) *)

Record Certificate := mkCertificate {
  id : option nat;          (* primary key, [None] until the row is inserted *)
  name : string;
  code : string;
  image_data : string
}.

(** The committed rows of the [certificates] table. *)
Definition table := list Certificate.

(** ** Exceptions and the handler monad *)

Inductive exn :=
| KeyError (k : string)
| TypeError
| OverflowError
| IntegrityError
| InterfaceError.

Inductive result (A : Type) :=
| Return (a : A)
| Raise (e : exn).
Arguments Return {A} a.
Arguments Raise {A} e.

(** A computation reads and writes the table and may raise. *)
Definition M (A : Type) := table -> result A * table.

Definition ret {A} (a : A) : M A := fun t => (Return a, t).

Definition raise {A} (e : exn) : M A := fun t => (Raise e, t).

Definition bind {A B} (m : M A) (k : A -> M B) : M B :=
  fun t =>
    match m t with
    | (Return a, t') => k a t'
    | (Raise e, t') => (Raise e, t')
    end.

Declare Scope handler_scope.
Delimit Scope handler_scope with handler.
Notation "x <- m ;; k" := (bind m (fun x => k))
  (at level 100, m at next level, right associativity) : handler_scope.
Notation "m ;;; k" := (bind m (fun _ => k))
  (at level 100, right associativity) : handler_scope.
Open Scope handler_scope.

(** ** Python dictionaries *)

(** [k in d]. *)
Definition contains {V} (k : string) (d : gmap string V) : bool :=
  match d !! k with
  | Some _ => true
  | None => false
  end.

(** [not d]: a dictionary is falsy exactly when it has no key. *)
Definition py_not {V} (d : gmap string V) : bool :=
  match map_to_list d with
  | [] => true
  | _ :: _ => false
  end.

(** [d[k]]. *)
Definition getitem {V} (k : string) (d : gmap string V) : M V :=
  match d !! k with
  | Some v => ret v
  | None => raise (KeyError k)
  end.

(** ** The table operations the handlers use *)

(** [Certificate.query.filter_by(code=c).first()]. *)
Definition query_filter_by_code_first (c : string) : M (option Certificate) :=
  fun t => (Return (List.find (fun r => String.eqb (code r) c) t), t).

(** Whether some row carries code [c]: the lookup in the unique index. *)
Definition exists_by_code (c : string) (t : table) : bool :=
  existsb (fun r => String.eqb (code r) c) t.

(** The rowid SQLite gives to the next row: one more than the largest. *)
Definition next_id (t : table) : nat :=
  S (foldr (fun r m => Nat.max (default 0 (id r)) m) 0 t).

(** One INSERT: refused when the code is already in the table
    ([unique=True]), else the row is appended with a fresh primary key. *)
Definition insert (c : Certificate) (t : table) : option table :=
  if exists_by_code (code c) t then None
  else Some (t ++ [mkCertificate (Some (next_id t)) (name c) (code c) (image_data c)]).

(** The INSERTs of a batch, in order, inside one transaction. *)
Fixpoint insert_all (cs : list Certificate) (t : table) : option table :=
  match cs with
  | [] => Some t
  | c :: cs' =>
      match insert c t with
      | Some t' => insert_all cs' t'
      | None => None
      end
  end.

(** [db.session.add(c); db.session.commit()], giving the primary key that
    [c.id] reads afterwards.  A refused INSERT raises and commits nothing. *)
Definition session_add_commit (c : Certificate) : M nat :=
  fun t =>
    match insert c t with
    | Some t' => (Return (next_id t), t')
    | None => (Raise IntegrityError, t)
    end.

(** [db.session.bulk_save_objects(cs); db.session.commit()].  A refused
    INSERT raises before the commit, and the whole batch is rolled back. *)
Definition bulk_save_objects_commit (cs : list Certificate) : M unit :=
  fun t =>
    match insert_all cs t with
    | Some t' => (Return tt, t')
    | None => (Raise IntegrityError, t)
    end.

(** ** Responses *)

Inductive body :=
| ErrorBody (error : string)                        (* {'error': ...} *)
| CreatedBody (message : string) (new_id : nat)     (* {'message': ..., 'id': ...} *)
| MessageBody (message : string)                    (* {'message': ...} *)
| CertificateBody (n c i : string).                 (* {'name', 'code', 'image_data'} *)

Record response := jsonify { payload : body; status : nat }.

(** What the client receives: the handler's response, or the server's 500
    page when the handler raised. *)
Inductive outcome :=
| Responded (r : response)
| Unhandled (e : exn).

Definition status_code (o : outcome) : nat :=
  match o with
  | Responded r => status r
  | Unhandled _ => 500
  end.

(** Serving one request on table [t]: the outcome and the table afterwards. *)
Definition serve (h : M response) (t : table) : outcome * table :=
  match h t with
  | (Return r, t') => (Responded r, t')
  | (Raise e, t') => (Unhandled e, t')
  end.

(** ** The handlers *)

Definition required_keys : list string := ["name"; "code"; "image_data"].

(** [all(k in d for k in ['name', 'code', 'image_data'])]. *)
Definition all_keys_in (d : gmap string string) : bool :=
  forallb (fun k => contains k d) required_keys.

(** The condition of line 60: [not data or not all(...)]. *)
Definition missing_data (data : option (gmap string string)) : bool :=
  match data with
  | None => true
  | Some d => py_not d || negb (all_keys_in d)
  end.

(** [add_certificate], lines 54-75.  On a null body [not data] decides the
    test of line 60 before any key is looked up. *)
Definition add_certificate (data : option (gmap string string)) : M response :=
  match data with
  | None => ret (jsonify (ErrorBody "Missing data") 400)
  | Some d =>
      if missing_data data then ret (jsonify (ErrorBody "Missing data") 400)
      else
        c <- getitem "code" d ;;
        existing <- query_filter_by_code_first c ;;
        match existing with
        | Some _ => ret (jsonify (ErrorBody "Certificate code already exists") 409)
        | None =>
            n <- getitem "name" d ;;
            c <- getitem "code" d ;;
            i <- getitem "image_data" d ;;
            new_id <- session_add_commit (mkCertificate None n c i) ;;
            ret (jsonify (CreatedBody "Certificate created successfully" new_id) 201)
        end
  end.

(** The loop of lines 88-99, with [certs_to_add] as accumulator. *)
Fixpoint collect (certificates : list (gmap string string))
    (certs_to_add : list Certificate) : M (list Certificate) :=
  match certificates with
  | [] => ret certs_to_add
  | cert_data :: rest =>
      if negb (all_keys_in cert_data) then collect rest certs_to_add
      else
        c <- getitem "code" cert_data ;;
        existing <- query_filter_by_code_first c ;;
        match existing with
        | Some _ => collect rest certs_to_add
        | None =>
            n <- getitem "name" cert_data ;;
            c <- getitem "code" cert_data ;;
            i <- getitem "image_data" cert_data ;;
            collect rest (certs_to_add ++ [mkCertificate None n c i])
        end
  end.

Definition added_message (n : nat) : string :=
  "Successfully added " +:+ pretty n +:+ " certificates.".

(** The condition of line 84: [not data or 'certificates' not in data]. *)
Definition missing_list (data : option (gmap string (list (gmap string string)))) : bool :=
  match data with
  | None => true
  | Some d => py_not d || negb (contains "certificates" d)
  end.

(** [add_bulk_certificates], lines 78-107.  The count in the message is
    [len(certs_to_add)]; [bulk_save_objects] returns nothing. *)
Definition add_bulk_certificates
    (data : option (gmap string (list (gmap string string)))) : M response :=
  match data with
  | None => ret (jsonify (ErrorBody "Missing certificate list") 400)
  | Some d =>
      if missing_list data then ret (jsonify (ErrorBody "Missing certificate list") 400)
      else
        certificates <- getitem "certificates" d ;;
        certs_to_add <- collect certificates [] ;;
        match certs_to_add with
        | [] => ret (jsonify (MessageBody "No new certificates to add or data was invalid.") 200)
        | _ :: _ =>
            bulk_save_objects_commit certs_to_add ;;;
            ret (jsonify (MessageBody (added_message (length certs_to_add))) 201)
        end
  end.

(** [get_certificate], lines 111-124. *)
Definition get_certificate (c : string) : M response :=
  cert <- query_filter_by_code_first c ;;
  match cert with
  | Some r => ret (jsonify (CertificateBody (name r) (code r) (image_data r)) 200)
  | None => ret (jsonify (ErrorBody "Certificate not found") 404)
  end.

(** ** Request bodies used in the examples *)

Definition cert_json (n c i : string) : gmap string string :=
  <["name" := n]> (<["code" := c]> (<["image_data" := i]> ∅)).

Definition bulk_json (l : list (gmap string string))
  : gmap string (list (gmap string string)) :=
  <["certificates" := l]> ∅.

Definition batch_A1_B1_C2 : list (gmap string string) :=
  [cert_json "A" "1" "imgA"; cert_json "B" "1" "imgB"; cert_json "C" "2" "imgC"].

Definition batch_A1_C2 : list (gmap string string) :=
  [cert_json "A" "1" "imgA"; cert_json "C" "2" "imgC"].

(** ** Routing ([@app.route]) *)

Inductive request :=
| PostCertificate (data : option (gmap string string))
| PostBulk (data : option (gmap string (list (gmap string string))))
| GetCertificate (c : string).

Definition route (req : request) : M response :=
  match req with
  | PostCertificate data => add_certificate data
  | PostBulk data => add_bulk_certificates data
  | GetCertificate c => get_certificate c
  end.

(** ** Vocabulary of the properties *)

(** The invariant of the data model: no two rows share a code. *)
Definition unique_codes (t : table) : Prop := NoDup (map code t).

(** The table after a sequence of requests served one after the other. *)
Definition serve_all (reqs : list request) (t : table) : table :=
  foldl (fun t req => (serve (route req) t).2) t reqs.

(** An item that the bulk loop passes over on table [t]: it lacks one of the
    three keys, or some row of [t] already carries its code. *)
Definition skipped (t : table) (cert_data : gmap string string) : Prop :=
  all_keys_in cert_data = false \/
  exists c, cert_data !! "code" = Some c /\ exists_by_code c t = true.

(** The request body has no entry for key [k]. *)
Definition lacks {V} (k : string) (data : option (gmap string V)) : Prop :=
  match data with
  | None => True
  | Some d => d !! k = None
  end.

(** What the loop of [add_bulk_certificates] gathers on table [t]: the
    well-formed items whose code no row of [t] carries, in input order. *)
Fixpoint accepted (t : table) (certificates : list (gmap string string))
  : list Certificate :=
  match certificates with
  | [] => []
  | cert_data :: rest =>
      match cert_data !! "name", cert_data !! "code", cert_data !! "image_data" with
      | Some n, Some c, Some i =>
          if exists_by_code c t then accepted t rest
          else mkCertificate None n c i :: accepted t rest
      | _, _, _ => accepted t rest
      end
  end.

(** The three public values of a row. *)
Definition fields (r : Certificate) : string * string * string :=
  (name r, code r, image_data r).

(** Every row has a primary key and no two rows share one
    ([id = db.Column(db.Integer, primary_key=True)]). *)
Definition keyed (t : table) : Prop :=
  Forall (fun r => is_Some (id r)) t /\ NoDup (map id t).

(** The items of a bulk request sent one by one to the single-add route. *)
Definition single_adds (certificates : list (gmap string string)) : list request :=
  map (fun cert_data => PostCertificate (Some cert_data)) certificates.

(** Two well-formed items at different places of the list carry the same
    code, and no row of [t] carries it. *)
Definition repeats_new_code (t : table) (certificates : list (gmap string string))
  : Prop :=
  exists l1 x l2 y l3 c,
    certificates = l1 ++ x :: l2 ++ y :: l3 /\
    all_keys_in x = true /\ all_keys_in y = true /\
    x !! "code" = Some c /\ y !! "code" = Some c /\
    exists_by_code c t = false.

(** ** The bulk handler over any session write *)

(** [add_bulk_certificates] with the call of lines 104-105 taken as a
    parameter: [save] stands for [db.session.bulk_save_objects] followed by
    the commit.  What [save] returns is dropped, as line 104 drops it. *)
Definition add_bulk_certificates_with (save : list Certificate -> M unit)
    (data : option (gmap string (list (gmap string string)))) : M response :=
  match data with
  | None => ret (jsonify (ErrorBody "Missing certificate list") 400)
  | Some d =>
      if missing_list data then ret (jsonify (ErrorBody "Missing certificate list") 400)
      else
        certificates <- getitem "certificates" d ;;
        certs_to_add <- collect certificates [] ;;
        match certs_to_add with
        | [] => ret (jsonify (MessageBody "No new certificates to add or data was invalid.") 200)
        | _ :: _ =>
            save certs_to_add ;;;
            ret (jsonify (MessageBody (added_message (length certs_to_add))) 201)
        end
  end.

(** ** The URL rule of the lookup ([<string:code>], line 110) *)

(** The [string] converter takes one path segment: at least one character
    and no slash. *)
Definition string_converter (c : string) : bool :=
  negb (String.eqb c "")
  && negb (existsb (Ascii.eqb "/"%char) (String.list_ascii_of_string c)).

(** GET [/api/certificates/c]: the handler runs when the rule matches;
    otherwise no view is called ([None]) and the router answers 404. *)
Definition get_certificate_route (c : string) (t : table) : option (outcome * table) :=
  if string_converter c then Some (serve (get_certificate c) t) else None.

(** ** The handlers on any JSON body

    [request.get_json()] can yield any JSON value, and so can every item and
    every field.  The handlers of this section follow the Python text on all
    of them; on a body that is null or an object with string values they are
    the handlers above ([add_certificate_json], [add_bulk_certificates_json]
    below).  Numbers are the integers: a number with a fraction passes every
    test of the handlers as an integer does. *)

#[local] Set Warnings "-register-all".
Inductive json :=
| JNull
| JBool (b : bool)
| JInt (z : Z)
| JString (s : string)
| JArray (l : list json)
| JObject (d : gmap string json).
#[local] Set Warnings "register-all".

(** A pure step inside a handler. *)
Definition lift {A} (r : result A) : M A := fun t => (r, t).

(** [k in s] for two strings: [k] occurs in [s]. *)
Fixpoint has_substring (k s : string) : bool :=
  String.prefix k s
  || match s with
     | EmptyString => false
     | String _ s' => has_substring k s'
     end.

(** The keyword arguments of [Certificate(name=..., code=..., image_data=...)]. *)
Record values := mkValues { v_name : json; v_code : json; v_image_data : json }.

Module Py.

(** [bool(v)]. *)
Definition truthy (v : json) : bool :=
  match v with
  | JNull => false
  | JBool b => b
  | JInt z => negb (z =? 0)%Z
  | JString s => negb (String.eqb s "")
  | JArray l => match l with [] => false | _ :: _ => true end
  | JObject d => negb (py_not d)
  end.

(** [k in v] for a string [k]: key of an object, element of an array,
    substring of a string; [None], booleans and numbers are not
    containers. *)
Definition contains (k : string) (v : json) : result bool :=
  match v with
  | JObject d => Return (contains k d)
  | JArray l =>
      Return (existsb (fun x => match x with
                                | JString s => String.eqb s k
                                | _ => false
                                end) l)
  | JString s => Return (has_substring k s)
  | JNull | JBool _ | JInt _ => Raise TypeError
  end.

(** [all(k in v for k in ks)]: the tests run in order and stop at the
    first that fails. *)
Fixpoint all_in (ks : list string) (v : json) : result bool :=
  match ks with
  | [] => Return true
  | k :: ks' =>
      match contains k v with
      | Return true => all_in ks' v
      | Return false => Return false
      | Raise e => Raise e
      end
  end.

(** [v[k]] for a string [k]: only an object takes a string subscript. *)
Definition subscript (k : string) (v : json) : result json :=
  match v with
  | JObject d =>
      match d !! k with
      | Some x => Return x
      | None => Raise (KeyError k)
      end
  | _ => Raise TypeError
  end.

(** The items of [for x in v]: the elements of an array, the characters of
    a string, the keys of an object (their order plays no part below: a key
    is a string, which the loop passes over or fails on). *)
Definition iter (v : json) : result (list json) :=
  match v with
  | JArray l => Return l
  | JString s =>
      Return (map (fun a => JString (String a EmptyString))
                (String.list_ascii_of_string s))
  | JObject d => Return (map (fun kv => JString kv.1) (map_to_list d))
  | JNull | JBool _ | JInt _ => Raise TypeError
  end.

(** A value handed to SQLite for a TEXT column: text, or NULL ([None]).
    Integers and booleans take their text form there; an integer that does
    not fit 64 bits, an array or an object is refused by the driver. *)
Definition bind_param (v : json) : result (option string) :=
  match v with
  | JNull => Return None
  | JBool b => Return (Some (if b then "1" else "0"))
  | JInt z =>
      if ((- 2 ^ 63 <=? z) && (z <? 2 ^ 63))%Z then Return (Some (pretty z))
      else Raise OverflowError
  | JString s => Return (Some s)
  | JArray _ | JObject _ => Raise InterfaceError
  end.

(** [Certificate.query.filter_by(code=v).first()]. *)
Definition query_filter_by_code_first (v : json) : M (option Certificate) :=
  match bind_param v with
  | Return (Some s) => query_filter_by_code_first s
  | Return None => ret None
  | Raise e => raise e
  end.

(** One INSERT of the given values: the driver binds them, then the
    NOT NULL and UNIQUE constraints of lines 34-37 apply. *)
Definition insert (c : values) (t : table) : result table :=
  match bind_param (v_name c), bind_param (v_code c), bind_param (v_image_data c) with
  | Return n, Return k, Return i =>
      match n, k, i with
      | Some n, Some k, Some i =>
          match insert (mkCertificate None n k i) t with
          | Some t' => Return t'
          | None => Raise IntegrityError
          end
      | _, _, _ => Raise IntegrityError
      end
  | Raise e, _, _ => Raise e
  | _, Raise e, _ => Raise e
  | _, _, Raise e => Raise e
  end.

Fixpoint insert_all (cs : list values) (t : table) : result table :=
  match cs with
  | [] => Return t
  | c :: cs' =>
      match insert c t with
      | Return t' => insert_all cs' t'
      | Raise e => Raise e
      end
  end.

(** [db.session.add(c); db.session.commit()] and the read of [c.id]. *)
Definition session_add_commit (c : values) : M nat :=
  fun t =>
    match insert c t with
    | Return t' => (Return (next_id t), t')
    | Raise e => (Raise e, t)
    end.

(** [db.session.bulk_save_objects(cs); db.session.commit()]. *)
Definition bulk_save_objects_commit (cs : list values) : M unit :=
  fun t =>
    match insert_all cs t with
    | Return t' => (Return tt, t')
    | Raise e => (Raise e, t)
    end.

(** [add_certificate], lines 54-75. *)
Definition add_certificate (data : json) : M response :=
  if negb (truthy data) then ret (jsonify (ErrorBody "Missing data") 400)
  else
    present <- lift (all_in required_keys data) ;;
    if negb present then ret (jsonify (ErrorBody "Missing data") 400)
    else
      c <- lift (subscript "code" data) ;;
      existing <- query_filter_by_code_first c ;;
      match existing with
      | Some _ => ret (jsonify (ErrorBody "Certificate code already exists") 409)
      | None =>
          n <- lift (subscript "name" data) ;;
          c <- lift (subscript "code" data) ;;
          i <- lift (subscript "image_data" data) ;;
          new_id <- session_add_commit (mkValues n c i) ;;
          ret (jsonify (CreatedBody "Certificate created successfully" new_id) 201)
      end.

(** The loop of lines 88-99. *)
Fixpoint collect (certificates : list json) (certs_to_add : list values)
  : M (list values) :=
  match certificates with
  | [] => ret certs_to_add
  | cert_data :: rest =>
      present <- lift (all_in required_keys cert_data) ;;
      if negb present then collect rest certs_to_add
      else
        c <- lift (subscript "code" cert_data) ;;
        existing <- query_filter_by_code_first c ;;
        match existing with
        | Some _ => collect rest certs_to_add
        | None =>
            n <- lift (subscript "name" cert_data) ;;
            c <- lift (subscript "code" cert_data) ;;
            i <- lift (subscript "image_data" cert_data) ;;
            collect rest (certs_to_add ++ [mkValues n c i])
        end
  end.

(** [add_bulk_certificates], lines 78-107. *)
Definition add_bulk_certificates (data : json) : M response :=
  if negb (truthy data) then ret (jsonify (ErrorBody "Missing certificate list") 400)
  else
    present <- lift (contains "certificates" data) ;;
    if negb present then ret (jsonify (ErrorBody "Missing certificate list") 400)
    else
      certificates <- lift (subscript "certificates" data) ;;
      items <- lift (iter certificates) ;;
      certs_to_add <- collect items [] ;;
      match certs_to_add with
      | [] => ret (jsonify (MessageBody "No new certificates to add or data was invalid.") 200)
      | _ :: _ =>
          bulk_save_objects_commit certs_to_add ;;;
          ret (jsonify (MessageBody (added_message (length certs_to_add))) 201)
      end.

(** An item that the loop passes over on table [t]: a string, an array or
    an object that does not contain the three names, or an object with the
    three keys whose code is a string that some row carries. *)
Definition skipped (t : table) (cert_data : json) : Prop :=
  all_in required_keys cert_data = Return false \/
  exists d c, cert_data = JObject d /\
    all_in required_keys cert_data = Return true /\
    d !! "code" = Some (JString c) /\ exists_by_code c t = true.

End Py.

(** A body of the typed handlers as the JSON value it stands for. *)
Definition object_json (d : gmap string string) : json := JObject (JString <$> d).

Definition body_json (data : option (gmap string string)) : json :=
  match data with
  | None => JNull
  | Some d => object_json d
  end.

Definition bulk_body_json (data : option (gmap string (list (gmap string string))))
  : json :=
  match data with
  | None => JNull
  | Some d => JObject ((fun l => JArray (object_json <$> l)) <$> d)
  end.

Definition certificate_values (c : Certificate) : values :=
  mkValues (JString (name c)) (JString (code c)) (JString (image_data c)).

(** * Properties *)

(** ** Dictionaries and the index *)

Lemma py_not_true_empty {V} (d : gmap string V) : py_not d = true -> d = ∅.
Proof.
  unfold py_not. destruct (map_to_list d) eqn:E; [|discriminate].
  intros _. by apply map_to_list_empty_iff.
Qed.

Lemma py_not_false_lookup {V} (d : gmap string V) k v :
  d !! k = Some v -> py_not d = false.
Proof.
  intros Hk. destruct (py_not d) eqn:E; [|done].
  apply py_not_true_empty in E. subst d. by rewrite lookup_empty in Hk.
Qed.

Lemma all_keys_in_true d :
  all_keys_in d = true <->
  exists n c i, d !! "name" = Some n /\ d !! "code" = Some c /\ d !! "image_data" = Some i.
Proof.
  unfold all_keys_in, required_keys, contains. simpl. split.
  - destruct (d !! "name") as [n|]; [|discriminate].
    destruct (d !! "code") as [c|]; [|discriminate].
    destruct (d !! "image_data") as [i|]; [|discriminate].
    intros _. by exists n, c, i.
  - intros (n & c & i & -> & -> & ->). reflexivity.
Qed.

Lemma all_keys_in_false d :
  all_keys_in d = false <->
  d !! "name" = None \/ d !! "code" = None \/ d !! "image_data" = None.
Proof.
  unfold all_keys_in, required_keys, contains. simpl.
  destruct (d !! "name"), (d !! "code"), (d !! "image_data"); simpl;
    intuition discriminate.
Qed.

Lemma find_code_none c (t : table) :
  List.find (fun r => String.eqb (code r) c) t = None <-> exists_by_code c t = false.
Proof.
  unfold exists_by_code. induction t as [|r t IH]; simpl; [done|].
  destruct (String.eqb (code r) c); simpl; [split; discriminate | exact IH].
Qed.

Lemma find_code_some c (t : table) r :
  List.find (fun r => String.eqb (code r) c) t = Some r -> exists_by_code c t = true.
Proof.
  intros H. destruct (exists_by_code c t) eqn:E; [done|].
  apply find_code_none in E. congruence.
Qed.

Lemma exists_by_code_spec c (t : table) :
  exists_by_code c t = true <-> c ∈ map code t.
Proof.
  unfold exists_by_code. induction t as [|r t IH]; simpl.
  - split; [discriminate | intros H; inversion H].
  - rewrite orb_true_iff, IH, String.eqb_eq, elem_of_cons. intuition congruence.
Qed.

(** ** INSERT and the uniqueness constraint *)

Lemma insert_Some c t t' :
  insert c t = Some t' <->
  exists_by_code (code c) t = false /\
  t' = t ++ [mkCertificate (Some (next_id t)) (name c) (code c) (image_data c)].
Proof.
  unfold insert. destruct (exists_by_code (code c) t); split.
  - discriminate.
  - intros [? _]. discriminate.
  - intros [= <-]. done.
  - intros [_ ->]. done.
Qed.

Lemma insert_None c t :
  insert c t = None <-> exists_by_code (code c) t = true.
Proof. unfold insert. by destruct (exists_by_code (code c) t). Qed.

Lemma insert_unique c t t' :
  insert c t = Some t' -> unique_codes t -> unique_codes t'.
Proof.
  intros [Hfresh ->]%insert_Some Hu. unfold unique_codes in *.
  rewrite map_app. simpl. apply NoDup_app. split; [done|]. split.
  - intros k Hk Hk'. apply list_elem_of_singleton in Hk' as ->.
    apply exists_by_code_spec in Hk. congruence.
  - apply NoDup_singleton.
Qed.

Lemma insert_length c t t' : insert c t = Some t' -> length t' = S (length t).
Proof. intros [_ ->]%insert_Some. rewrite length_app. simpl. lia. Qed.

Lemma insert_all_unique cs : forall t t',
  insert_all cs t = Some t' -> unique_codes t -> unique_codes t'.
Proof.
  induction cs as [|c cs IH]; simpl; intros t t' H Hu.
  - by injection H as <-.
  - destruct (insert c t) as [t1|] eqn:E; [|discriminate].
    eapply IH; [exact H|]. by eapply insert_unique.
Qed.

Lemma insert_all_length cs : forall t t',
  insert_all cs t = Some t' -> length t' = length t + length cs.
Proof.
  induction cs as [|c cs IH]; simpl; intros t t' H.
  - injection H as <-. lia.
  - destruct (insert c t) as [t1|] eqn:E; [|discriminate].
    rewrite (IH _ _ H), (insert_length _ _ _ E). lia.
Qed.

(** ** What each handler computes *)

Lemma collect_accepted certificates : forall certs_to_add t,
  collect certificates certs_to_add t
  = (Return (certs_to_add ++ accepted t certificates), t).
Proof.
  induction certificates as [|d rest IH]; intros acc t; simpl.
  - unfold ret. by rewrite app_nil_r.
  - destruct (all_keys_in d) eqn:Hall; simpl.
    + apply all_keys_in_true in Hall as (n & c & i & Hn & Hc & Hi).
      rewrite Hn, Hc, Hi. unfold getitem, bind, ret, query_filter_by_code_first.
      rewrite Hn, Hc, Hi.
      destruct (List.find _ t) as [r|] eqn:Hf.
      * rewrite (find_code_some _ _ _ Hf). apply IH.
      * apply find_code_none in Hf. rewrite Hf, IH.
        by rewrite <- app_assoc.
    + apply all_keys_in_false in Hall.
      destruct (d !! "name"), (d !! "code"), (d !! "image_data");
        try apply IH; destruct Hall as [?|[?|?]]; discriminate.
Qed.

Lemma add_certificate_missing data t :
  missing_data data = true ->
  add_certificate data t = (Return (jsonify (ErrorBody "Missing data") 400), t).
Proof.
  intros H. unfold add_certificate. destruct data as [d|]; [|done]. by rewrite H.
Qed.

Lemma missing_data_fields d n c i :
  d !! "name" = Some n -> d !! "code" = Some c -> d !! "image_data" = Some i ->
  missing_data (Some d) = false.
Proof.
  intros Hn Hc Hi. unfold missing_data.
  rewrite (py_not_false_lookup _ _ _ Hn). simpl.
  apply negb_false_iff, all_keys_in_true. by exists n, c, i.
Qed.

Lemma add_certificate_fields d n c i t :
  d !! "name" = Some n -> d !! "code" = Some c -> d !! "image_data" = Some i ->
  add_certificate (Some d) t =
    if exists_by_code c t
    then (Return (jsonify (ErrorBody "Certificate code already exists") 409), t)
    else (Return (jsonify (CreatedBody "Certificate created successfully" (next_id t)) 201),
          t ++ [mkCertificate (Some (next_id t)) n c i]).
Proof.
  intros Hn Hc Hi. unfold add_certificate.
  rewrite (missing_data_fields _ _ _ _ Hn Hc Hi).
  unfold getitem, bind, ret, query_filter_by_code_first, session_add_commit, insert.
  rewrite Hn, Hc, Hi. simpl.
  destruct (List.find _ t) as [r|] eqn:Hf.
  - by rewrite (find_code_some _ _ _ Hf).
  - apply find_code_none in Hf. by rewrite Hf.
Qed.

Lemma add_bulk_missing data t :
  missing_list data = true ->
  add_bulk_certificates data t
  = (Return (jsonify (ErrorBody "Missing certificate list") 400), t).
Proof.
  intros H. unfold add_bulk_certificates. destruct data as [d|]; [|done]. by rewrite H.
Qed.

Lemma missing_list_lacks data : missing_list data = true <-> lacks "certificates" data.
Proof.
  destruct data as [d|]; simpl; [|done]. unfold contains.
  destruct (d !! "certificates") as [l|] eqn:E.
  - rewrite (py_not_false_lookup _ _ _ E). simpl. split; discriminate.
  - rewrite orb_true_r. done.
Qed.

Lemma add_bulk_list d certificates t :
  d !! "certificates" = Some certificates ->
  add_bulk_certificates (Some d) t =
    match accepted t certificates with
    | [] => (Return (jsonify (MessageBody "No new certificates to add or data was invalid.") 200), t)
    | _ :: _ =>
        match insert_all (accepted t certificates) t with
        | Some t' =>
            (Return (jsonify (MessageBody (added_message (length (accepted t certificates)))) 201), t')
        | None => (Raise IntegrityError, t)
        end
    end.
Proof.
  intros Hl. unfold add_bulk_certificates.
  destruct (missing_list (Some d)) eqn:Hm.
  { apply missing_list_lacks in Hm. simpl in Hm. congruence. }
  unfold getitem. rewrite Hl. unfold bind at 1. unfold ret at 1.
  unfold bind at 1. rewrite collect_accepted. simpl.
  destruct (accepted t certificates) as [|a l] eqn:Ha; [done|].
  unfold bind, bulk_save_objects_commit.
  destruct (insert_all (a :: l) t); done.
Qed.

(** ** The reported count is readable from the message *)

Lemma list_ascii_of_string_app (s1 s2 : string) :
  String.list_ascii_of_string (s1 +:+ s2) = String.list_ascii_of_string s1 ++ String.list_ascii_of_string s2.
Proof. induction s1 as [|a s1 IH]; simpl; [done|]. by rewrite IH. Qed.

Lemma string_app_inv_tail (s1 s2 s : string) : s1 +:+ s = s2 +:+ s -> s1 = s2.
Proof.
  intros H. apply (f_equal String.list_ascii_of_string) in H.
  rewrite !list_ascii_of_string_app in H. apply app_inv_tail in H.
  apply (f_equal String.string_of_list_ascii) in H.
  by rewrite !String.string_of_list_ascii_of_string in H.
Qed.

Lemma added_message_inj n m : added_message n = added_message m -> n = m.
Proof.
  unfold added_message. intros H.
  apply (inj (String.app "Successfully added ")) in H.
  apply string_app_inv_tail in H. by apply (inj pretty) in H.
Qed.

(** ** Bulk import: a code repeated inside one batch *)

(** C1.  The specification asks that of the items of one batch that share a
    code the first be written, so that the batch [{A,1}; {B,1}; {C,2}] on an
    empty table writes two rows.  The loop of [add_bulk_certificates] checks
    each item against the table only: it gathers all three items, the batch
    INSERT is refused by the uniqueness constraint on [code], the request
    ends with an unhandled [IntegrityError], and no row is written. *)
Theorem bulk_repeated_code_writes_nothing :
  accepted [] batch_A1_B1_C2
    = [mkCertificate None "A" "1" "imgA"; mkCertificate None "B" "1" "imgB";
       mkCertificate None "C" "2" "imgC"]
  /\ serve (add_bulk_certificates (Some (bulk_json batch_A1_B1_C2))) []
    = (Unhandled IntegrityError, []).
Proof. split; vm_compute; reflexivity. Qed.

(** The same on every table and for every batch: the batch INSERT succeeds
    only if the gathered codes are pairwise distinct and new to the table. *)
Lemma exists_by_code_app c (t1 t2 : table) :
  exists_by_code c (t1 ++ t2) = exists_by_code c t1 || exists_by_code c t2.
Proof. unfold exists_by_code. apply existsb_app. Qed.

Lemma insert_all_fresh cs : forall t t' c,
  insert_all cs t = Some t' -> c ∈ map code cs -> exists_by_code c t = false.
Proof.
  induction cs as [|a cs IH]; simpl; intros t t' c H Hin; [inversion Hin|].
  destruct (insert a t) as [t1|] eqn:E; [|discriminate].
  apply insert_Some in E as [Hfresh ->].
  apply elem_of_cons in Hin as [->|Hin]; [done|].
  specialize (IH _ _ _ H Hin). rewrite exists_by_code_app in IH.
  by apply orb_false_iff in IH as [? _].
Qed.

Lemma insert_all_distinct cs : forall t t',
  insert_all cs t = Some t' -> NoDup (map code cs).
Proof.
  induction cs as [|a cs IH]; simpl; intros t t' H; [constructor|].
  destruct (insert a t) as [t1|] eqn:E; [|discriminate].
  constructor; [|by eapply IH].
  intros Hin. apply insert_Some in E as [_ ->].
  pose proof (insert_all_fresh _ _ _ _ H Hin) as Hf.
  rewrite exists_by_code_app in Hf. apply orb_false_iff in Hf as [_ Hf].
  unfold exists_by_code in Hf. simpl in Hf. by rewrite String.eqb_refl in Hf.
Qed.

Lemma insert_all_succeeds cs : forall t,
  NoDup (map code cs) ->
  (forall c, c ∈ map code cs -> exists_by_code c t = false) ->
  exists t', insert_all cs t = Some t'.
Proof.
  induction cs as [|a cs IH]; simpl; intros t Hnd Hf; [by eexists|].
  apply NoDup_cons in Hnd as [Ha Hnd].
  unfold insert. rewrite (Hf (code a)) by (apply elem_of_cons; auto).
  apply IH; [done|]. intros c Hc. rewrite exists_by_code_app, (Hf c).
  - unfold exists_by_code. simpl. rewrite orb_false_r.
    apply String.eqb_neq. intros <-. done.
  - apply elem_of_cons. auto.
Qed.

Lemma accepted_fresh t certificates c :
  c ∈ map code (accepted t certificates) -> exists_by_code c t = false.
Proof.
  induction certificates as [|d rest IH]; simpl; [intros H; inversion H|].
  destruct (d !! "name"), (d !! "code") as [c'|], (d !! "image_data"); try done.
  destruct (exists_by_code c' t) eqn:He; [done|]. simpl.
  intros [->|H]%elem_of_cons; auto.
Qed.

(** A batch whose gathered list repeats a code is refused as a whole. *)
Lemma bulk_repeated_code_raises d certificates (t : table) :
  d !! "certificates" = Some certificates ->
  ~ NoDup (map code (accepted t certificates)) ->
  serve (add_bulk_certificates (Some d)) t = (Unhandled IntegrityError, t).
Proof.
  intros Hl Hnd. unfold serve. rewrite (add_bulk_list _ _ _ Hl).
  destruct (accepted t certificates) as [|a cs] eqn:Ha.
  { destruct Hnd. constructor. }
  destruct (insert_all (a :: cs) t) as [t'|] eqn:Hi; [|done].
  destruct Hnd. by eapply insert_all_distinct.
Qed.

(** A batch whose gathered list is non-empty and repeats no code is written. *)
Lemma bulk_distinct_codes_written
    (d : gmap string (list (gmap string string))) certificates (t : table) :
  d !! "certificates" = Some certificates ->
  accepted t certificates <> [] ->
  NoDup (map code (accepted t certificates)) ->
  exists t',
    serve (add_bulk_certificates (Some d)) t
    = (Responded
         (jsonify (MessageBody (added_message (length (accepted t certificates)))) 201),
       t')
    /\ length t' = length t + length (accepted t certificates).
Proof.
  intros Hl Hne Hnd.
  destruct (insert_all_succeeds (accepted t certificates) t Hnd) as [t' Hi].
  { apply accepted_fresh. }
  exists t'. split; [|by apply insert_all_length].
  unfold serve. rewrite (add_bulk_list _ _ _ Hl).
  destruct (accepted t certificates) as [|a cs] eqn:Ha; [done|]. by rewrite Hi.
Qed.

(** ** The table after a request *)

Lemma missing_data_false d :
  missing_data (Some d) = false ->
  exists n c i, d !! "name" = Some n /\ d !! "code" = Some c /\ d !! "image_data" = Some i.
Proof.
  simpl. intros [_ H]%orb_false_iff. by apply all_keys_in_true, negb_false_iff.
Qed.

Lemma missing_list_false (d : gmap string (list (gmap string string))) :
  missing_list (Some d) = false -> exists l, d !! "certificates" = Some l.
Proof.
  simpl. intros [_ H]%orb_false_iff. unfold contains in H.
  destruct (d !! "certificates") as [l|]; [by exists l | discriminate].
Qed.

Lemma get_certificate_table c t : (get_certificate c t).2 = t.
Proof.
  unfold get_certificate, bind, query_filter_by_code_first, ret.
  by destruct (List.find _ t).
Qed.

Lemma serve_table h t : (serve h t).2 = (h t).2.
Proof. unfold serve. by destruct (h t) as [[r|e] t']. Qed.

(** A request leaves the table as it was or extends it by INSERTs that the
    uniqueness constraint let through. *)
Lemma route_table req t :
  (route req t).2 = t \/
  exists cs, insert_all cs t = Some (route req t).2.
Proof.
  destruct req as [data|data|c]; simpl.
  - destruct (missing_data data) eqn:Hm.
    + left. by rewrite add_certificate_missing.
    + destruct data as [d|]; [|discriminate].
      destruct (missing_data_false _ Hm) as (n & k & i & Hn & Hk & Hi).
      rewrite (add_certificate_fields _ _ _ _ _ Hn Hk Hi).
      destruct (exists_by_code k t) eqn:He; [by left|]. right.
      exists [mkCertificate None n k i]. simpl. unfold insert. simpl. by rewrite He.
  - destruct (missing_list data) eqn:Hm.
    + left. by rewrite add_bulk_missing.
    + destruct data as [d|]; [|discriminate].
      destruct (missing_list_false _ Hm) as (l & Hl).
      rewrite (add_bulk_list _ _ _ Hl).
      destruct (accepted t l) as [|a cs] eqn:Ha; [by left|].
      destruct (insert_all (a :: cs) t) as [t'|] eqn:Hi; [|by left].
      right. by exists (a :: cs).
  - left. apply get_certificate_table.
Qed.

Lemma route_unique req t :
  unique_codes t -> unique_codes (serve (route req) t).2.
Proof.
  intros Hu. rewrite serve_table.
  destruct (route_table req t) as [-> | [cs Hcs]]; [done|].
  by eapply insert_all_unique.
Qed.

(** C2.  Every request (single add, bulk import, lookup) served on a table in
    which no two rows share a code leaves a table in which no two rows share
    a code. *)
Theorem unique_codes_preserved (req : request) (t : table) :
  unique_codes t -> unique_codes (serve (route req) t).2.
Proof. apply route_unique. Qed.

Lemma unique_codes_preserved_witness :
  unique_codes [mkCertificate (Some 1) "A" "1" "imgA"] /\
  unique_codes
    (serve (route (PostBulk (Some (bulk_json batch_A1_B1_C2))))
       [mkCertificate (Some 1) "A" "1" "imgA"]).2.
Proof.
  assert (unique_codes [mkCertificate (Some 1) "A" "1" "imgA"]) as H.
  { unfold unique_codes. simpl. apply NoDup_singleton. }
  split; [exact H|]. apply (unique_codes_preserved _ _ H).
Defined.

(** The tables that requests can build from the empty one all satisfy the
    invariant. *)
Lemma unique_codes_serve_all reqs : forall t,
  unique_codes t -> unique_codes (serve_all reqs t).
Proof.
  unfold serve_all. induction reqs as [|req reqs IH]; simpl; intros t Hu.
  - exact Hu.
  - apply IH. by apply route_unique.
Qed.

Lemma unique_codes_reachable reqs : unique_codes (serve_all reqs []).
Proof. apply unique_codes_serve_all. unfold unique_codes. simpl. constructor. Qed.

(** ** Bulk import: the reported count *)

Lemma add_bulk_certificates_with_session data :
  add_bulk_certificates_with bulk_save_objects_commit data = add_bulk_certificates data.
Proof. reflexivity. Qed.

(** Whatever the write of line 104 does, a 201 message carries the length of
    the gathered list. *)
Lemma bulk_count_any_session save d certificates (t t' : table) r :
  d !! "certificates" = Some certificates ->
  serve (add_bulk_certificates_with save (Some d)) t = (Responded r, t') ->
  status r = 201 ->
  payload r = MessageBody (added_message (length (accepted t certificates))).
Proof.
  intros Hl Hs Hr. unfold serve, add_bulk_certificates_with in Hs.
  destruct (missing_list (Some d)) eqn:Hm.
  { apply missing_list_lacks in Hm. simpl in Hm. congruence. }
  unfold getitem in Hs. rewrite Hl in Hs. unfold bind at 1 in Hs. unfold ret at 1 in Hs.
  unfold bind at 1 in Hs. rewrite collect_accepted in Hs. simpl in Hs.
  destruct (accepted t certificates) as [|a cs].
  { injection Hs as <- _. discriminate. }
  unfold bind in Hs. destruct (save (a :: cs) t) as [[[]|e] t1]; [|discriminate].
  by injection Hs as <- _.
Qed.

(** C3, as the specification states it, fails: the number in the message is
    not one that the store returns.  The write of line 104 hands back no
    count, and line 107 reports [len(certs_to_add)], fixed before the write:
    run on a session whose write stores nothing, the handler still reports
    2. *)
Lemma bulk_count_computed_before_write :
  (bulk_save_objects_commit
     [mkCertificate None "A" "1" "imgA"; mkCertificate None "C" "2" "imgC"] []).1
  = Return tt /\
  serve (add_bulk_certificates_with (fun _ => ret tt) (Some (bulk_json batch_A1_C2))) []
  = (Responded (jsonify (MessageBody (added_message 2)) 201), []).
Proof. split; vm_compute; reflexivity. Qed.

(** C3, amended.  For a bulk import that gathers a non-empty list: the
    response is the success message carrying the number [N], with [t'] the
    table afterwards, exactly when the batch INSERT of the gathered list went
    through with result [t'] and [N] is the length of the gathered list; that
    number is then the number of rows the write added. *)
Theorem bulk_reports_rows_written d certificates (t t' : table) (N : nat) :
  d !! "certificates" = Some certificates ->
  accepted t certificates <> [] ->
  serve (add_bulk_certificates (Some d)) t
  = (Responded (jsonify (MessageBody (added_message N)) 201), t')
  <->
  insert_all (accepted t certificates) t = Some t' /\
  N = length (accepted t certificates) /\
  N = length t' - length t.
Proof.
  intros Hl Hne. unfold serve. rewrite (add_bulk_list _ _ _ Hl).
  destruct (accepted t certificates) as [|a cs] eqn:Ha; [done|].
  destruct (insert_all (a :: cs) t) as [t1|] eqn:Hi.
  - pose proof (insert_all_length _ _ _ Hi) as Hlen. split.
    + intros H.
      assert (added_message (length (a :: cs)) = added_message N) as HN by congruence.
      assert (t1 = t') as <- by congruence.
      apply added_message_inj in HN. split; [done|]. split; [done|]. lia.
    + by intros ([= <-] & -> & _).
  - split; [discriminate | intros [? _]; discriminate].
Qed.

Lemma bulk_reports_rows_written_witness :
  serve (add_bulk_certificates (Some (bulk_json batch_A1_C2))) []
  = (Responded (jsonify (MessageBody (added_message 2)) 201),
     [mkCertificate (Some 1) "A" "1" "imgA"; mkCertificate (Some 2) "C" "2" "imgC"]).
Proof.
  apply (bulk_reports_rows_written (bulk_json batch_A1_C2) batch_A1_C2 []
           [mkCertificate (Some 1) "A" "1" "imgA"; mkCertificate (Some 2) "C" "2" "imgC"] 2).
  - vm_compute. reflexivity.
  - vm_compute. discriminate.
  - repeat split; vm_compute; reflexivity.
Defined.

(** ** Single add: rejections *)

(** C4, as the specification states it, fails: a payload whose code is in the
    table but which has no [name] is answered 400 (missing data), not 409. *)
Lemma single_add_existing_code_without_name :
  let t := [mkCertificate (Some 1) "A" "1" "imgA"] in
  let d : gmap string string := <["code" := "1"]> ∅ in
  d !! "code" = Some "1" /\ exists_by_code "1" t = true /\
  serve (add_certificate (Some d)) t
  = (Responded (jsonify (ErrorBody "Missing data") 400), t) /\
  status_code (serve (add_certificate (Some d)) t).1 <> 409.
Proof. vm_compute. repeat split; discriminate. Qed.

(** C4, amended.  A single add whose payload has the three fields and whose
    code some row already carries is answered 409 (code already exists) and
    the table is as before: the existing row is untouched and no row is
    added. *)
Theorem single_add_duplicate_code d n c i (t : table) :
  d !! "name" = Some n -> d !! "code" = Some c -> d !! "image_data" = Some i ->
  exists_by_code c t = true ->
  serve (add_certificate (Some d)) t
  = (Responded (jsonify (ErrorBody "Certificate code already exists") 409), t).
Proof.
  intros Hn Hc Hi He. unfold serve.
  by rewrite (add_certificate_fields _ _ _ _ _ Hn Hc Hi), He.
Qed.

Lemma single_add_duplicate_code_witness :
  serve (add_certificate (Some (cert_json "B" "1" "imgB")))
    [mkCertificate (Some 1) "A" "1" "imgA"]
  = (Responded (jsonify (ErrorBody "Certificate code already exists") 409),
     [mkCertificate (Some 1) "A" "1" "imgA"]).
Proof.
  apply (single_add_duplicate_code (cert_json "B" "1" "imgB") "B" "1" "imgB");
    vm_compute; reflexivity.
Defined.

(** On a null body or an object with string values: a single add whose
    payload lacks one of [name], [code], [image_data] is answered 400
    (missing data) and the table is as before. *)
Theorem single_add_missing_field data k (t : table) :
  k ∈ required_keys -> lacks k data ->
  serve (add_certificate data) t
  = (Responded (jsonify (ErrorBody "Missing data") 400), t).
Proof.
  intros Hk Hl. unfold serve. rewrite add_certificate_missing; [done|].
  destruct data as [d|]; [|done]. simpl in *.
  apply orb_true_iff. right. apply negb_true_iff, all_keys_in_false.
  unfold required_keys in Hk.
  repeat (apply elem_of_cons in Hk as [->|Hk]; [tauto|]). inversion Hk.
Qed.

Lemma single_add_missing_field_witness :
  serve (add_certificate (Some (<["name" := "A"]> (<["code" := "1"]> ∅)))) []
  = (Responded (jsonify (ErrorBody "Missing data") 400), []).
Proof.
  apply (single_add_missing_field _ "image_data").
  - unfold required_keys. do 2 apply list_elem_of_further. apply list_elem_of_here.
  - vm_compute. reflexivity.
Defined.

(** C9.  The validation of a single add looks at the presence of the three
    keys only: whatever the values of [name], [code] and [image_data] are,
    the empty string included, the request is not answered 400, and when no
    row carries the code the row is stored with these values. *)
Theorem single_add_presence_only d n c i (t : table) :
  d !! "name" = Some n -> d !! "code" = Some c -> d !! "image_data" = Some i ->
  missing_data (Some d) = false /\
  status_code (serve (add_certificate (Some d)) t).1 <> 400 /\
  (exists_by_code c t = false ->
   serve (add_certificate (Some d)) t
   = (Responded (jsonify (CreatedBody "Certificate created successfully" (next_id t)) 201),
      t ++ [mkCertificate (Some (next_id t)) n c i])).
Proof.
  intros Hn Hc Hi. split; [by eapply missing_data_fields|].
  unfold serve. rewrite (add_certificate_fields _ _ _ _ _ Hn Hc Hi).
  destruct (exists_by_code c t); simpl; split; (discriminate || done).
Qed.

Lemma single_add_presence_only_witness :
  missing_data (Some (cert_json "" "7" "")) = false /\
  status_code (serve (add_certificate (Some (cert_json "" "7" ""))) []).1 <> 400 /\
  (exists_by_code "7" [] = false ->
   serve (add_certificate (Some (cert_json "" "7" ""))) []
   = (Responded (jsonify (CreatedBody "Certificate created successfully" 1) 201),
      [mkCertificate (Some 1) "" "7" ""])).
Proof.
  apply (single_add_presence_only (cert_json "" "7" "") "" "7" "");
    vm_compute; reflexivity.
Defined.

(** ** Lookup *)

(** C10.  A lookup leaves the table as it was, whether it finds a row or
    not. *)
Theorem lookup_read_only c (t : table) : (serve (get_certificate c) t).2 = t.
Proof. rewrite serve_table. apply get_certificate_table. Qed.

(** ** Bulk import: nothing to add, and the missing list *)

Lemma accepted_skipped t certificates :
  Forall (skipped t) certificates -> accepted t certificates = [].
Proof.
  induction 1 as [|d rest Hd _ IH]; simpl; [done|]. rewrite IH.
  destruct Hd as [Hm | (c & Hc & He)].
  - apply all_keys_in_false in Hm.
    destruct (d !! "name"), (d !! "code"), (d !! "image_data"); try done;
      destruct Hm as [?|[?|?]]; discriminate.
  - rewrite Hc, He. by destruct (d !! "name"), (d !! "image_data").
Qed.

(** On a list of objects with string values: a bulk import in which every
    item lacks a key or carries a code that is already in the table is
    answered 200 with the message that nothing was added, and the table is as
    before. *)
Theorem bulk_nothing_to_add d certificates (t : table) :
  d !! "certificates" = Some certificates ->
  Forall (skipped t) certificates ->
  serve (add_bulk_certificates (Some d)) t
  = (Responded
       (jsonify (MessageBody "No new certificates to add or data was invalid.") 200),
     t).
Proof.
  intros Hl Hs. unfold serve.
  by rewrite (add_bulk_list _ _ _ Hl), (accepted_skipped _ _ Hs).
Qed.

Lemma bulk_nothing_to_add_witness :
  serve (add_bulk_certificates
           (Some (bulk_json [cert_json "B" "1" "imgB"; <["name" := "C"]> ∅])))
    [mkCertificate (Some 1) "A" "1" "imgA"]
  = (Responded
       (jsonify (MessageBody "No new certificates to add or data was invalid.") 200),
     [mkCertificate (Some 1) "A" "1" "imgA"]).
Proof.
  apply (bulk_nothing_to_add _ [cert_json "B" "1" "imgB"; <["name" := "C"]> ∅]).
  - vm_compute. reflexivity.
  - constructor; [|constructor; [|constructor]].
    + right. exists "1". split; vm_compute; reflexivity.
    + left. vm_compute. reflexivity.
Defined.

(** On a null body or an object whose values are lists of objects with
    string values: a bulk import is answered 400 (missing certificate list)
    exactly when the body has no [certificates] key, and then the table is as
    before. *)
Theorem bulk_missing_list_iff data (t : table) :
  (status_code (serve (add_bulk_certificates data) t).1 = 400
   <-> lacks "certificates" data) /\
  ((serve (add_bulk_certificates data) t).1
   = Responded (jsonify (ErrorBody "Missing certificate list") 400)
   <-> lacks "certificates" data) /\
  (lacks "certificates" data -> (serve (add_bulk_certificates data) t).2 = t).
Proof.
  unfold serve. destruct (missing_list data) eqn:Hm.
  - rewrite (add_bulk_missing _ _ Hm). apply missing_list_lacks in Hm. simpl. tauto.
  - assert (~ lacks "certificates" data) as Hn.
    { intros H%missing_list_lacks. congruence. }
    destruct data as [d|]; [|discriminate].
    destruct (missing_list_false _ Hm) as (l & Hl).
    rewrite (add_bulk_list _ _ _ Hl).
    destruct (accepted t l) as [|a cs]; [|destruct (insert_all (a :: cs) t)];
      simpl; repeat split; intros H; first [discriminate | destruct (Hn H)].
Qed.

(** ** Round trip: what was added is what a lookup returns *)

Lemma find_code_app c (t1 t2 : table) :
  List.find (fun r => String.eqb (code r) c) (t1 ++ t2)
  = match List.find (fun r => String.eqb (code r) c) t1 with
    | Some r => Some r
    | None => List.find (fun r => String.eqb (code r) c) t2
    end.
Proof.
  induction t1 as [|r t1 IH]; simpl; [done|].
  by destruct (String.eqb (code r) c).
Qed.

Lemma insert_all_extends cs : forall t t',
  insert_all cs t = Some t' -> exists ext, t' = t ++ ext.
Proof.
  induction cs as [|a cs IH]; simpl; intros t t' H.
  - injection H as <-. exists []. by rewrite app_nil_r.
  - destruct (insert a t) as [t1|] eqn:E; [|discriminate].
    apply insert_Some in E as [_ ->]. destruct (IH _ _ H) as [ext ->].
    eexists. by rewrite <- app_assoc.
Qed.

Lemma insert_find c t t' :
  insert c t = Some t' ->
  List.find (fun r => String.eqb (code r) (code c)) t'
  = Some (mkCertificate (Some (next_id t)) (name c) (code c) (image_data c)).
Proof.
  intros [Hf ->]%insert_Some. rewrite find_code_app.
  apply find_code_none in Hf. rewrite Hf. simpl. by rewrite String.eqb_refl.
Qed.

Lemma insert_all_find cs : forall t t' x,
  insert_all cs t = Some t' -> x ∈ cs ->
  exists k, List.find (fun r => String.eqb (code r) (code x)) t'
            = Some (mkCertificate (Some k) (name x) (code x) (image_data x)).
Proof.
  induction cs as [|a cs IH]; simpl; intros t t' x H Hin; [inversion Hin|].
  destruct (insert a t) as [t1|] eqn:E; [|discriminate].
  apply elem_of_cons in Hin as [->|Hin]; [|by eapply IH].
  exists (next_id t). destruct (insert_all_extends _ _ _ H) as [ext ->].
  by rewrite find_code_app, (insert_find _ _ _ E).
Qed.

Lemma get_certificate_found c (t : table) r :
  List.find (fun r => String.eqb (code r) c) t = Some r ->
  serve (get_certificate c) t
  = (Responded (jsonify (CertificateBody (name r) (code r) (image_data r)) 200), t).
Proof.
  intros H. unfold serve, get_certificate, bind, query_filter_by_code_first, ret.
  by rewrite H.
Qed.

Lemma elem_of_accepted t certificates item n c i :
  item ∈ certificates ->
  item !! "name" = Some n -> item !! "code" = Some c -> item !! "image_data" = Some i ->
  exists_by_code c t = false ->
  mkCertificate None n c i ∈ accepted t certificates.
Proof.
  intros Hin Hn Hc Hi He.
  induction certificates as [|d rest IH]; [inversion Hin|].
  apply elem_of_cons in Hin as [<-|Hin]; simpl.
  - rewrite Hn, Hc, Hi, He. apply list_elem_of_here.
  - specialize (IH Hin).
    destruct (d !! "name"), (d !! "code") as [c'|], (d !! "image_data"); try done.
    destruct (exists_by_code c' t); [done|]. by apply list_elem_of_further.
Qed.

(** C7, as the specification states it, fails: the valid payload with code
    [a/b] is stored with status 201, but the URL rule of the lookup takes no
    slash, so no lookup of that code reaches the handler. *)
Lemma round_trip_slash_code :
  exists_by_code "a/b" [] = false /\
  serve (add_certificate (Some (cert_json "A" "a/b" "imgA"))) []
  = (Responded (jsonify (CreatedBody "Certificate created successfully" 1) 201),
     [mkCertificate (Some 1) "A" "a/b" "imgA"]) /\
  get_certificate_route "a/b" [mkCertificate (Some 1) "A" "a/b" "imgA"] = None.
Proof. vm_compute. repeat split. Qed.

(** C7, amended.  A single add of a payload with the three fields and a code
    that no row carries and that the URL rule takes (not empty, no slash) is
    answered 201, and the lookup of that code on the resulting table returns
    the same name, code and image data.  A bulk import whose gathered items
    carry pairwise different codes is answered 201, and the same holds of
    every well-formed item of the request whose code no row carried before. *)
Theorem round_trip :
  (forall d n c i (t : table),
     d !! "name" = Some n -> d !! "code" = Some c -> d !! "image_data" = Some i ->
     exists_by_code c t = false ->
     string_converter c = true ->
     exists k t',
       serve (add_certificate (Some d)) t
       = (Responded (jsonify (CreatedBody "Certificate created successfully" k) 201), t')
       /\ get_certificate_route c t'
          = Some (Responded (jsonify (CertificateBody n c i) 200), t'))
  /\
  (forall (d : gmap string (list (gmap string string))) certificates (t : table),
     d !! "certificates" = Some certificates ->
     NoDup (map code (accepted t certificates)) ->
     forall item n c i,
       item ∈ certificates ->
       item !! "name" = Some n -> item !! "code" = Some c ->
       item !! "image_data" = Some i ->
       exists_by_code c t = false ->
       string_converter c = true ->
       exists t',
         serve (add_bulk_certificates (Some d)) t
         = (Responded
              (jsonify (MessageBody (added_message (length (accepted t certificates)))) 201),
            t')
         /\ get_certificate_route c t'
            = Some (Responded (jsonify (CertificateBody n c i) 200), t')).
Proof.
  split.
  - intros d n c i t Hn Hc Hi He Hu.
    exists (next_id t), (t ++ [mkCertificate (Some (next_id t)) n c i]). split.
    + unfold serve. by rewrite (add_certificate_fields _ _ _ _ _ Hn Hc Hi), He.
    + unfold get_certificate_route. rewrite Hu. f_equal.
      apply (get_certificate_found c _ (mkCertificate (Some (next_id t)) n c i)).
      apply (insert_find (mkCertificate None n c i) t). unfold insert. simpl.
      by rewrite He.
  - intros d certificates t Hl Hnd item n c i Hin Hn Hc Hi He Hu.
    pose proof (elem_of_accepted _ _ _ _ _ _ Hin Hn Hc Hi He) as Hacc.
    destruct (insert_all_succeeds (accepted t certificates) t Hnd) as [t' Hins].
    { apply accepted_fresh. }
    exists t'. split.
    + unfold serve. rewrite (add_bulk_list _ _ _ Hl).
      destruct (accepted t certificates) as [|a cs] eqn:Ha; [inversion Hacc|].
      by rewrite Hins.
    + destruct (insert_all_find _ _ _ _ Hins Hacc) as [k Hk]. simpl in Hk.
      unfold get_certificate_route. rewrite Hu. f_equal.
      apply (get_certificate_found c _ _ Hk).
Qed.

Lemma round_trip_witness :
  (exists k t',
     serve (add_certificate (Some (cert_json "A" "1" "imgA"))) []
     = (Responded (jsonify (CreatedBody "Certificate created successfully" k) 201), t')
     /\ get_certificate_route "1" t'
        = Some (Responded (jsonify (CertificateBody "A" "1" "imgA") 200), t'))
  /\
  (exists t',
     serve (add_bulk_certificates (Some (bulk_json batch_A1_C2))) []
     = (Responded
          (jsonify (MessageBody (added_message (length (accepted [] batch_A1_C2)))) 201),
        t')
     /\ get_certificate_route "2" t'
        = Some (Responded (jsonify (CertificateBody "C" "2" "imgC") 200), t')).
Proof.
  destruct round_trip as [Hsingle Hbulk]. split.
  - apply (Hsingle (cert_json "A" "1" "imgA")); vm_compute; reflexivity.
  - assert (NoDup (map code (accepted [] batch_A1_C2))) as Hnd.
    { vm_compute. apply NoDup_cons. split.
      - intros H. apply list_elem_of_singleton in H. discriminate.
      - apply NoDup_singleton. }
    apply (Hbulk (bulk_json batch_A1_C2) batch_A1_C2 [] eq_refl Hnd
             (cert_json "C" "2" "imgC") "C" "2" "imgC").
    + unfold batch_A1_C2. apply list_elem_of_further, list_elem_of_here.
    + vm_compute; reflexivity.
    + vm_compute; reflexivity.
    + vm_compute; reflexivity.
    + vm_compute; reflexivity.
    + vm_compute; reflexivity.
Defined.

(** * Further properties of the handlers *)

(** ** Lookup: what is answered *)

Lemma serve_get_certificate c (t : table) :
  serve (get_certificate c) t =
    match List.find (fun r => String.eqb (code r) c) t with
    | Some r => (Responded (jsonify (CertificateBody (name r) (code r) (image_data r)) 200), t)
    | None => (Responded (jsonify (ErrorBody "Certificate not found") 404), t)
    end.
Proof.
  unfold serve, get_certificate, bind, query_filter_by_code_first, ret.
  by destruct (List.find _ t).
Qed.

Lemma find_code_sound c (t : table) r :
  List.find (fun r => String.eqb (code r) c) t = Some r -> r ∈ t /\ code r = c.
Proof.
  intros [Hin He]%List.find_some. split.
  - by apply list_elem_of_In.
  - by apply String.eqb_eq.
Qed.



(** What a lookup answers with status 200 are the values of a row of the
    table, and the code among them is the code asked for. *)
Theorem lookup_sound c (t : table) n k i :
  (serve (get_certificate c) t).1 = Responded (jsonify (CertificateBody n k i) 200) ->
  k = c /\ exists r, r ∈ t /\ fields r = (n, c, i).
Proof.
  rewrite serve_get_certificate.
  destruct (List.find _ t) as [r|] eqn:Hf; simpl; [|discriminate].
  intros [= <- <- <-]. destruct (find_code_sound _ _ _ Hf) as [Hin Hc].
  split; [done|]. exists r. split; [done|]. unfold fields. by rewrite Hc.
Qed.

Lemma lookup_sound_witness :
  "1" = "1" /\
  exists r, r ∈ [mkCertificate (Some 1) "A" "1" "imgA"] /\ fields r = ("A", "1", "imgA").
Proof.
  apply (lookup_sound "1" [mkCertificate (Some 1) "A" "1" "imgA"] "A" "1" "imgA").
  vm_compute. reflexivity.
Defined.



(** ** Requests never modify or delete a row *)

Lemma route_extends req (t : table) : exists ext, (serve (route req) t).2 = t ++ ext.
Proof.
  rewrite serve_table. destruct (route_table req t) as [-> | [cs Hcs]].
  - exists []. by rewrite app_nil_r.
  - by eapply insert_all_extends.
Qed.

(** The table after any request starts with the table before it: rows are
    only ever appended. *)
Theorem requests_append_only req (t : table) :
  t `prefix_of` (serve (route req) t).2.
Proof. destruct (route_extends req t) as [ext ->]. by exists ext. Qed.

(** Once a lookup of a code is answered 200, it is answered the same after
    any further request. *)
Theorem lookup_stable req c (t : table) r :
  (serve (get_certificate c) t).1 = Responded r -> status r = 200 ->
  (serve (get_certificate c) (serve (route req) t).2).1 = Responded r.
Proof.
  intros Hr Hs. destruct (route_extends req t) as [ext ->].
  rewrite serve_get_certificate in *. rewrite find_code_app.
  destruct (List.find _ t) as [x|]; [done|].
  simpl in Hr. injection Hr as <-. discriminate.
Qed.

Lemma lookup_stable_witness :
  (serve (get_certificate "1")
     (serve (route (PostBulk (Some (bulk_json batch_A1_C2))))
        [mkCertificate (Some 1) "Z" "1" "imgZ"]).2).1
  = Responded (jsonify (CertificateBody "Z" "1" "imgZ") 200).
Proof.
  apply (lookup_stable (PostBulk (Some (bulk_json batch_A1_C2))) "1"
           [mkCertificate (Some 1) "Z" "1" "imgZ"]).
  - vm_compute. reflexivity.
  - reflexivity.
Defined.

(** ** Single add: the possible answers, repeats, other codes *)

Lemma serve_add_certificate_fields d n c i (t : table) :
  d !! "name" = Some n -> d !! "code" = Some c -> d !! "image_data" = Some i ->
  serve (add_certificate (Some d)) t =
    if exists_by_code c t
    then (Responded (jsonify (ErrorBody "Certificate code already exists") 409), t)
    else (Responded (jsonify (CreatedBody "Certificate created successfully" (next_id t)) 201),
          t ++ [mkCertificate (Some (next_id t)) n c i]).
Proof.
  intros Hn Hc Hi. unfold serve. rewrite (add_certificate_fields _ _ _ _ _ Hn Hc Hi).
  by destruct (exists_by_code c t).
Qed.

Lemma serve_add_certificate_missing data (t : table) :
  missing_data data = true ->
  serve (add_certificate data) t = (Responded (jsonify (ErrorBody "Missing data") 400), t).
Proof. intros H. unfold serve. by rewrite (add_certificate_missing _ _ H). Qed.

Lemma exists_by_code_last c (t : table) r :
  exists_by_code c (t ++ [r]) = exists_by_code c t || String.eqb (code r) c.
Proof. rewrite exists_by_code_app. unfold exists_by_code. simpl. by rewrite orb_false_r. Qed.

(** A single add never ends in a server error: it is answered 400, 409 or
    201.  The table changes only with 201, and then by exactly one appended
    row. *)
Theorem single_add_never_raises data (t : table) :
  exists r,
    (serve (add_certificate data) t).1 = Responded r /\
    (status r = 400 \/ status r = 409 \/ status r = 201) /\
    (status r <> 201 -> (serve (add_certificate data) t).2 = t) /\
    (status r = 201 -> exists x, (serve (add_certificate data) t).2 = t ++ [x]).
Proof.
  destruct (missing_data data) eqn:Hm.
  - rewrite (serve_add_certificate_missing _ _ Hm). eexists. simpl.
    repeat split; [by left | discriminate].
  - destruct data as [d|]; [|discriminate].
    destruct (missing_data_false _ Hm) as (n & c & i & Hn & Hc & Hi).
    rewrite (serve_add_certificate_fields _ _ _ _ _ Hn Hc Hi).
    destruct (exists_by_code c t); eexists; simpl.
    + repeat split; [by right; left | discriminate].
    + repeat split; [by right; right | done | by eexists].
Qed.

(** Sending the same single add a second time never adds a second row: the
    repeat is answered 400 or 409 and leaves the table as the first left
    it. *)
Theorem single_add_repeat data (t : table) :
  let t1 := (serve (add_certificate data) t).2 in
  (serve (add_certificate data) t1).2 = t1 /\
  (status_code (serve (add_certificate data) t1).1 = 400 \/
   status_code (serve (add_certificate data) t1).1 = 409).
Proof.
  cbv zeta. destruct (missing_data data) eqn:Hm.
  - rewrite !(serve_add_certificate_missing _ _ Hm). by split; [|left].
  - destruct data as [d|]; [|discriminate].
    destruct (missing_data_false _ Hm) as (n & c & i & Hn & Hc & Hi).
    rewrite (serve_add_certificate_fields _ _ _ _ t Hn Hc Hi).
    destruct (exists_by_code c t) eqn:He; cbn [fst snd].
    + rewrite (serve_add_certificate_fields _ _ _ _ t Hn Hc Hi), He.
      by split; [|right].
    + rewrite (serve_add_certificate_fields _ _ _ _ _ Hn Hc Hi).
      rewrite exists_by_code_last. cbn [code]. rewrite String.eqb_refl, orb_true_r.
      by split; [|right].
Qed.

(** A single add for code [c] does not change what the lookup of any other
    code answers. *)
Theorem single_add_other_codes d c c' (t : table) :
  d !! "code" = Some c -> c' <> c ->
  (serve (get_certificate c') (serve (add_certificate (Some d)) t).2).1
  = (serve (get_certificate c') t).1.
Proof.
  intros Hc Hne. destruct (missing_data (Some d)) eqn:Hm.
  - by rewrite (serve_add_certificate_missing _ _ Hm).
  - destruct (missing_data_false _ Hm) as (n & k & i & Hn & Hk & Hi).
    assert (k = c) as -> by congruence.
    rewrite (serve_add_certificate_fields _ _ _ _ _ Hn Hc Hi).
    destruct (exists_by_code c t); [done|]. simpl.
    rewrite !serve_get_certificate, find_code_app. simpl.
    assert (String.eqb c c' = false) as -> by (apply String.eqb_neq; congruence).
    by destruct (List.find _ t).
Qed.

Lemma single_add_other_codes_witness :
  (serve (get_certificate "2")
     (serve (add_certificate (Some (cert_json "A" "1" "imgA")))
        [mkCertificate (Some 1) "C" "2" "imgC"]).2).1
  = (serve (get_certificate "2") [mkCertificate (Some 1) "C" "2" "imgC"]).1.
Proof.
  apply (single_add_other_codes (cert_json "A" "1" "imgA") "1" "2").
  - vm_compute. reflexivity.
  - discriminate.
Defined.

(** ** Bulk import: what is gathered and what is written *)

Lemma serve_add_bulk_list d certificates (t : table) :
  d !! "certificates" = Some certificates ->
  serve (add_bulk_certificates (Some d)) t =
    match accepted t certificates with
    | [] => (Responded
               (jsonify (MessageBody "No new certificates to add or data was invalid.") 200),
             t)
    | _ :: _ =>
        match insert_all (accepted t certificates) t with
        | Some t' =>
            (Responded
               (jsonify (MessageBody (added_message (length (accepted t certificates)))) 201),
             t')
        | None => (Unhandled IntegrityError, t)
        end
    end.
Proof.
  intros Hl. unfold serve. rewrite (add_bulk_list _ _ _ Hl).
  destruct (accepted t certificates) as [|a cs]; [done|].
  by destruct (insert_all (a :: cs) t).
Qed.

Lemma accepted_app t l1 l2 : accepted t (l1 ++ l2) = accepted t l1 ++ accepted t l2.
Proof.
  induction l1 as [|d l1 IH]; simpl; [done|].
  destruct (d !! "name"), (d !! "code") as [c|], (d !! "image_data"); try done.
  destruct (exists_by_code c t); [done|]. simpl. by rewrite IH.
Qed.

Lemma accepted_cons_fields t d rest n c i :
  d !! "name" = Some n -> d !! "code" = Some c -> d !! "image_data" = Some i ->
  accepted t (d :: rest) =
    if exists_by_code c t then accepted t rest
    else mkCertificate None n c i :: accepted t rest.
Proof. intros Hn Hc Hi. simpl. by rewrite Hn, Hc, Hi. Qed.

Lemma accepted_cons_malformed t d rest :
  all_keys_in d = false -> accepted t (d :: rest) = accepted t rest.
Proof.
  intros Hm%all_keys_in_false. simpl.
  destruct (d !! "name"), (d !! "code"), (d !! "image_data"); try done.
  destruct Hm as [?|[?|?]]; discriminate.
Qed.

(** Every gathered certificate comes from a well-formed item of the request
    whose code no row carries. *)
Lemma accepted_elem t certificates x :
  x ∈ accepted t certificates ->
  exists item, item ∈ certificates /\
    item !! "name" = Some (name x) /\ item !! "code" = Some (code x) /\
    item !! "image_data" = Some (image_data x) /\
    exists_by_code (code x) t = false.
Proof.
  induction certificates as [|d rest IH]; [intros H; inversion H|].
  destruct (all_keys_in d) eqn:Hall.
  - apply all_keys_in_true in Hall as (n & c & i & Hn & Hc & Hi).
    rewrite (accepted_cons_fields _ _ _ _ _ _ Hn Hc Hi).
    destruct (exists_by_code c t) eqn:He.
    + intros (item & Hin & H)%IH. exists item. split; [by apply list_elem_of_further | done].
    + intros [->|Hin]%elem_of_cons.
      * exists d. split; [apply list_elem_of_here | done].
      * destruct (IH Hin) as (item & Hin' & H). exists item.
        split; [by apply list_elem_of_further | done].
  - rewrite (accepted_cons_malformed _ _ _ Hall).
    intros (item & Hin & H)%IH. exists item. split; [by apply list_elem_of_further | done].
Qed.

Lemma accepted_nil_skipped t certificates :
  accepted t certificates = [] -> Forall (skipped t) certificates.
Proof.
  induction certificates as [|d rest IH]; [constructor|].
  destruct (all_keys_in d) eqn:Hall.
  - pose proof Hall as (n & c & i & Hn & Hc & Hi)%all_keys_in_true.
    rewrite (accepted_cons_fields _ _ _ _ _ _ Hn Hc Hi).
    destruct (exists_by_code c t) eqn:He; [|discriminate].
    intros H. constructor; [|by apply IH]. right. by exists c.
  - rewrite (accepted_cons_malformed _ _ _ Hall).
    intros H. constructor; [by left | by apply IH].
Qed.

Lemma insert_all_rows cs : forall t t',
  insert_all cs t = Some t' ->
  exists rows, t' = t ++ rows /\ map fields rows = map fields cs.
Proof.
  induction cs as [|a cs IH]; simpl; intros t t' H.
  - injection H as <-. exists []. by rewrite app_nil_r.
  - destruct (insert a t) as [t1|] eqn:E; [|discriminate].
    apply insert_Some in E as [_ ->]. destruct (IH _ _ H) as (rows & -> & Hrows).
    eexists (_ :: rows). split; [by rewrite <- app_assoc|]. simpl. by rewrite Hrows.
Qed.

Lemma insert_all_mono cs : forall t t' c,
  insert_all cs t = Some t' -> exists_by_code c t = true -> exists_by_code c t' = true.
Proof.
  intros t t' c H Hc. destruct (insert_all_extends _ _ _ H) as [ext ->].
  by rewrite exists_by_code_app, Hc.
Qed.

Lemma insert_all_exists cs : forall t t' x,
  insert_all cs t = Some t' -> x ∈ cs -> exists_by_code (code x) t' = true.
Proof.
  intros t t' x H Hin. destruct (insert_all_find _ _ _ _ H Hin) as [k Hk].
  by eapply find_code_some.
Qed.

(** A bulk import writes all that it gathered or nothing.  With status 201
    the table grows by one row for each well-formed item whose code no row
    carried, in the order of the request and with the item's values; with any
    other outcome the table is as before. *)
Theorem bulk_all_or_nothing d certificates (t : table) :
  d !! "certificates" = Some certificates ->
  (status_code (serve (add_bulk_certificates (Some d)) t).1 = 201 /\
   exists rows, (serve (add_bulk_certificates (Some d)) t).2 = t ++ rows /\
                map fields rows = map fields (accepted t certificates))
  \/
  (status_code (serve (add_bulk_certificates (Some d)) t).1 <> 201 /\
   (serve (add_bulk_certificates (Some d)) t).2 = t).
Proof.
  intros Hl. rewrite (serve_add_bulk_list _ _ _ Hl).
  destruct (accepted t certificates) as [|a cs] eqn:Ha.
  { right. by split. }
  destruct (insert_all (a :: cs) t) as [t'|] eqn:Hi.
  - left. split; [done|]. by apply insert_all_rows.
  - right. by split.
Qed.

Lemma bulk_all_or_nothing_witness :
  (status_code (serve (add_bulk_certificates (Some (bulk_json batch_A1_C2)))
                  [mkCertificate (Some 1) "Z" "1" "imgZ"]).1 = 201 /\
   exists rows,
     (serve (add_bulk_certificates (Some (bulk_json batch_A1_C2)))
        [mkCertificate (Some 1) "Z" "1" "imgZ"]).2
     = [mkCertificate (Some 1) "Z" "1" "imgZ"] ++ rows /\
     map fields rows
     = map fields (accepted [mkCertificate (Some 1) "Z" "1" "imgZ"] batch_A1_C2))
  \/
  (status_code (serve (add_bulk_certificates (Some (bulk_json batch_A1_C2)))
                  [mkCertificate (Some 1) "Z" "1" "imgZ"]).1 <> 201 /\
   (serve (add_bulk_certificates (Some (bulk_json batch_A1_C2)))
      [mkCertificate (Some 1) "Z" "1" "imgZ"]).2
   = [mkCertificate (Some 1) "Z" "1" "imgZ"]).
Proof.
  apply (bulk_all_or_nothing (bulk_json batch_A1_C2) batch_A1_C2).
  vm_compute. reflexivity.
Defined.

(** A bulk import is answered 200 (nothing added) exactly when every item of
    the list is malformed or carries a code that some row already has. *)
Theorem bulk_nothing_added_iff d certificates (t : table) :
  d !! "certificates" = Some certificates ->
  status_code (serve (add_bulk_certificates (Some d)) t).1 = 200
  <-> Forall (skipped t) certificates.
Proof.
  intros Hl. split.
  - rewrite (serve_add_bulk_list _ _ _ Hl).
    destruct (accepted t certificates) as [|a cs] eqn:Ha.
    + intros _. by apply accepted_nil_skipped.
    + destruct (insert_all (a :: cs) t); discriminate.
  - intros Hs. unfold serve.
    by rewrite (add_bulk_list _ _ _ Hl), (accepted_skipped _ _ Hs).
Qed.

Lemma bulk_nothing_added_iff_witness :
  status_code
    (serve (add_bulk_certificates (Some (bulk_json [<["name" := "C"]> ∅]))) []).1 = 200
  <-> Forall (skipped []) [<["name" := "C"]> ∅].
Proof.
  apply (bulk_nothing_added_iff (bulk_json [<["name" := "C"]> ∅])).
  vm_compute. reflexivity.
Defined.

(** ** Bulk import: when the request ends in a server error *)

Lemma repeats_new_code_cons t d rest :
  repeats_new_code t rest -> repeats_new_code t (d :: rest).
Proof.
  intros (l1 & x & l2 & y & l3 & c & -> & H).
  by exists (d :: l1), x, l2, y, l3, c.
Qed.

Lemma repeats_not_distinct t certificates :
  repeats_new_code t certificates -> ~ NoDup (map code (accepted t certificates)).
Proof.
  intros (l1 & x & l2 & y & l3 & c & -> & Hx & Hy & Hcx & Hcy & He).
  apply all_keys_in_true in Hx as (nx & cx & ix & Hnx & Hcx' & Hix).
  apply all_keys_in_true in Hy as (ny & cy & iy & Hny & Hcy' & Hiy).
  assert (cx = c) as -> by congruence. assert (cy = c) as -> by congruence.
  rewrite accepted_app, (accepted_cons_fields _ _ _ _ _ _ Hnx Hcx Hix), He.
  rewrite accepted_app, (accepted_cons_fields _ _ _ _ _ _ Hny Hcy Hiy), He.
  rewrite map_app. intros [_ [_ Hnd]]%NoDup_app. simpl in Hnd.
  apply NoDup_cons in Hnd as [Hc _]. apply Hc.
  rewrite map_app. apply elem_of_app. right. simpl. apply list_elem_of_here.
Qed.

Lemma not_distinct_repeats t certificates :
  ~ NoDup (map code (accepted t certificates)) -> repeats_new_code t certificates.
Proof.
  induction certificates as [|d rest IH].
  { intros H. destruct H. constructor. }
  destruct (all_keys_in d) eqn:Hall.
  - pose proof Hall as (n & c & i & Hn & Hc & Hi)%all_keys_in_true.
    rewrite (accepted_cons_fields _ _ _ _ _ _ Hn Hc Hi).
    destruct (exists_by_code c t) eqn:He.
    + intros H. by apply repeats_new_code_cons, IH.
    + simpl. intros Hnd.
      destruct (decide (c ∈ map code (accepted t rest))) as [Hin|Hnin].
      * apply list_elem_of_fmap in Hin as (x & -> & Hx).
        destruct (accepted_elem _ _ _ Hx) as (item & Hitem & Hin' & Hic & Hii & _).
        apply list_elem_of_split in Hitem as (l2 & l3 & ->).
        exists [], d, l2, item, l3, (code x). simpl. repeat split; try done.
        apply all_keys_in_true. by exists (name x), (code x), (image_data x).
      * apply repeats_new_code_cons, IH. intros Hnd'. apply Hnd.
        by apply NoDup_cons.
  - rewrite (accepted_cons_malformed _ _ _ Hall).
    intros H. by apply repeats_new_code_cons, IH.
Qed.

(** A bulk import ends in a server error exactly when two well-formed items
    of the list carry the same code and no row carries that code; the error
    is the refused INSERT, never a missing key, and the table is as before. *)
Theorem bulk_raises_iff d certificates (t : table) :
  d !! "certificates" = Some certificates ->
  ((serve (add_bulk_certificates (Some d)) t).1 = Unhandled IntegrityError
   <-> repeats_new_code t certificates) /\
  (forall e, (serve (add_bulk_certificates (Some d)) t).1 = Unhandled e ->
             e = IntegrityError /\ (serve (add_bulk_certificates (Some d)) t).2 = t).
Proof.
  intros Hl. split; [split|].
  - intros H. apply not_distinct_repeats. intros Hnd.
    rewrite (serve_add_bulk_list _ _ _ Hl) in H.
    destruct (accepted t certificates) as [|a cs] eqn:Ha; [discriminate|].
    destruct (insert_all_succeeds (a :: cs) t Hnd) as [t' Hi].
    { rewrite <- Ha. apply accepted_fresh. }
    rewrite Hi in H. discriminate.
  - intros H%repeats_not_distinct.
    by rewrite (surjective_pairing (serve _ _)), (bulk_repeated_code_raises _ _ _ Hl H).
  - intros e. rewrite (serve_add_bulk_list _ _ _ Hl).
    destruct (accepted t certificates) as [|a cs]; [discriminate|].
    destruct (insert_all (a :: cs) t); [discriminate|]. by intros [= <-].
Qed.

Lemma bulk_raises_iff_witness :
  ((serve (add_bulk_certificates (Some (bulk_json batch_A1_B1_C2))) []).1
   = Unhandled IntegrityError
   <-> repeats_new_code [] batch_A1_B1_C2) /\
  (forall e,
     (serve (add_bulk_certificates (Some (bulk_json batch_A1_B1_C2))) []).1 = Unhandled e ->
     e = IntegrityError /\
     (serve (add_bulk_certificates (Some (bulk_json batch_A1_B1_C2))) []).2 = []).
Proof.
  apply (bulk_raises_iff (bulk_json batch_A1_B1_C2) batch_A1_B1_C2).
  vm_compute. reflexivity.
Defined.

(** ** Bulk import: repeats, single adds, other codes *)

Lemma skipped_after_insert_all t t' certificates :
  insert_all (accepted t certificates) t = Some t' ->
  Forall (skipped t') certificates.
Proof.
  intros Hi. apply Forall_forall. intros item Hin.
  destruct (all_keys_in item) eqn:Hall; [|by left]. right.
  apply all_keys_in_true in Hall as (n & c & i & Hn & Hc & Hi').
  exists c. split; [done|].
  destruct (exists_by_code c t) eqn:He.
  - by eapply insert_all_mono.
  - apply (insert_all_exists _ _ _ (mkCertificate None n c i) Hi).
    by eapply elem_of_accepted.
Qed.

(** Sending the same bulk import a second time never adds a row: the table
    stays as the first request left it, and the repeat is not answered
    201. *)
Theorem bulk_repeat data (t : table) :
  let t1 := (serve (add_bulk_certificates data) t).2 in
  (serve (add_bulk_certificates data) t1).2 = t1 /\
  status_code (serve (add_bulk_certificates data) t1).1 <> 201.
Proof.
  cbv zeta. destruct (missing_list data) eqn:Hm.
  - unfold serve. rewrite !(add_bulk_missing _ _ Hm). by split.
  - destruct data as [d|]; [|discriminate].
    destruct (missing_list_false _ Hm) as (l & Hl).
    rewrite (serve_add_bulk_list _ _ t Hl).
    destruct (accepted t l) as [|a cs] eqn:Ha; cbn [fst snd].
    + rewrite (serve_add_bulk_list _ _ t Hl), Ha. by split.
    + destruct (insert_all (a :: cs) t) as [t'|] eqn:Hi; cbn [fst snd].
      * rewrite <- Ha in Hi. apply skipped_after_insert_all in Hi.
        rewrite (serve_add_bulk_list _ _ t' Hl), (accepted_skipped _ _ Hi). by split.
      * rewrite (serve_add_bulk_list _ _ t Hl), Ha, Hi. by split.
Qed.

Lemma serve_all_single_adds certificates : forall (t0 t t' : table),
  (forall c, exists_by_code c t0 = true -> exists_by_code c t = true) ->
  insert_all (accepted t0 certificates) t = Some t' ->
  serve_all (single_adds certificates) t = t'.
Proof.
  unfold serve_all, single_adds.
  induction certificates as [|d rest IH]; intros t0 t t' Hsub Hi.
  - simpl in *. by injection Hi as <-.
  - cbn [map foldl route]. destruct (all_keys_in d) eqn:Hall.
    + pose proof Hall as (n & c & i & Hn & Hc & Hi')%all_keys_in_true.
      rewrite (accepted_cons_fields _ _ _ _ _ _ Hn Hc Hi') in Hi.
      rewrite (serve_add_certificate_fields _ _ _ _ _ Hn Hc Hi').
      destruct (exists_by_code c t0) eqn:He0.
      * rewrite (Hsub _ He0). cbn [snd]. by eapply IH.
      * cbn [insert_all] in Hi.
        destruct (insert (mkCertificate None n c i) t) as [t1|] eqn:E; [|discriminate].
        apply insert_Some in E as [He ->]. cbn [name code image_data] in *.
        rewrite He. cbn [snd]. eapply IH; [|exact Hi].
        intros k Hk. by rewrite exists_by_code_app, (Hsub _ Hk).
    + rewrite (accepted_cons_malformed _ _ _ Hall) in Hi.
      rewrite serve_add_certificate_missing.
      * cbn [snd]. by eapply IH.
      * simpl. by rewrite Hall, orb_true_r.
Qed.

(** A bulk import answered 201 leaves the table that sending its items one
    by one, in order, to the single-add route would leave. *)
Theorem bulk_as_single_adds d certificates (t : table) r t' :
  d !! "certificates" = Some certificates ->
  serve (add_bulk_certificates (Some d)) t = (Responded r, t') ->
  status r = 201 ->
  serve_all (single_adds certificates) t = t'.
Proof.
  intros Hl Hs Hr. rewrite (serve_add_bulk_list _ _ _ Hl) in Hs.
  destruct (accepted t certificates) as [|a cs] eqn:Ha.
  { injection Hs as <- <-. discriminate. }
  destruct (insert_all (a :: cs) t) as [t1|] eqn:Hi; [|discriminate].
  injection Hs as _ <-. rewrite <- Ha in Hi.
  by apply (serve_all_single_adds certificates t t t1).
Qed.

Lemma bulk_as_single_adds_witness :
  serve_all (single_adds batch_A1_C2) [mkCertificate (Some 1) "Z" "1" "imgZ"]
  = [mkCertificate (Some 1) "Z" "1" "imgZ"; mkCertificate (Some 2) "C" "2" "imgC"].
Proof.
  apply (bulk_as_single_adds (bulk_json batch_A1_C2) batch_A1_C2
           [mkCertificate (Some 1) "Z" "1" "imgZ"]
           (jsonify (MessageBody (added_message 1)) 201)).
  - vm_compute. reflexivity.
  - vm_compute. reflexivity.
  - reflexivity.
Defined.

Lemma insert_all_other_codes cs : forall (t t' : table) c,
  insert_all cs t = Some t' -> c ∉ map code cs ->
  List.find (fun r => String.eqb (code r) c) t'
  = List.find (fun r => String.eqb (code r) c) t.
Proof.
  induction cs as [|a cs IH]; simpl; intros t t' c H Hc.
  - by injection H as <-.
  - destruct (insert a t) as [t1|] eqn:E; [|discriminate].
    apply not_elem_of_cons in Hc as [Hne Hc].
    rewrite (IH _ _ _ H Hc). apply insert_Some in E as [_ ->].
    rewrite find_code_app. simpl.
    assert (String.eqb (code a) c = false) as -> by (apply String.eqb_neq; congruence).
    by destruct (List.find _ t).
Qed.

(** A bulk import does not change what the lookup of a code answers when no
    item of the list carries that code. *)
Theorem bulk_other_codes d certificates c (t : table) :
  d !! "certificates" = Some certificates ->
  (forall item, item ∈ certificates -> item !! "code" <> Some c) ->
  (serve (get_certificate c) (serve (add_bulk_certificates (Some d)) t).2).1
  = (serve (get_certificate c) t).1.
Proof.
  intros Hl Hc. rewrite (serve_add_bulk_list _ _ _ Hl).
  destruct (accepted t certificates) as [|a cs] eqn:Ha; [done|].
  destruct (insert_all (a :: cs) t) as [t'|] eqn:Hi; [|done]. cbn [snd].
  rewrite !serve_get_certificate, (insert_all_other_codes _ _ _ c Hi);
    [by destruct (List.find _ t)|].
  rewrite <- Ha. intros (x & -> & Hx)%list_elem_of_fmap.
  destruct (accepted_elem _ _ _ Hx) as (item & Hin & _ & Hcode & _).
  by apply (Hc item).
Qed.

Lemma bulk_other_codes_witness :
  (serve (get_certificate "9")
     (serve (add_bulk_certificates (Some (bulk_json batch_A1_C2)))
        [mkCertificate (Some 1) "N" "9" "imgN"]).2).1
  = (serve (get_certificate "9") [mkCertificate (Some 1) "N" "9" "imgN"]).1.
Proof.
  apply (bulk_other_codes (bulk_json batch_A1_C2) batch_A1_C2 "9").
  - vm_compute. reflexivity.
  - intros item Hin. unfold batch_A1_C2 in Hin.
    apply elem_of_cons in Hin as [->|Hin]; [vm_compute; discriminate|].
    apply list_elem_of_singleton in Hin as ->. vm_compute. discriminate.
Defined.

(** ** Primary keys *)

Lemma id_below_next_id (t : table) r : r ∈ t -> default 0 (id r) < next_id t.
Proof.
  unfold next_id. induction t as [|a t IH]; simpl; intros Hin; [inversion Hin|].
  apply elem_of_cons in Hin as [->|Hin]; [lia|]. specialize (IH Hin). lia.
Qed.

Lemma next_id_fresh (t : table) : Some (next_id t) ∉ map id t.
Proof.
  intros (r & Hr & Hin)%list_elem_of_fmap.
  pose proof (id_below_next_id _ _ Hin) as Hlt. rewrite <- Hr in Hlt. simpl in Hlt. lia.
Qed.

Lemma insert_keyed c t t' : insert c t = Some t' -> keyed t -> keyed t'.
Proof.
  intros [_ ->]%insert_Some [Hs Hnd]. split.
  - apply Forall_app. split; [done|]. constructor; [by eexists | constructor].
  - rewrite map_app. apply NoDup_app. split; [done|]. split.
    + intros k Hk Hk'. simpl in Hk'. apply list_elem_of_singleton in Hk' as ->.
      by apply next_id_fresh in Hk.
    + apply NoDup_singleton.
Qed.

Lemma insert_all_keyed cs : forall t t',
  insert_all cs t = Some t' -> keyed t -> keyed t'.
Proof.
  induction cs as [|c cs IH]; simpl; intros t t' H Hk.
  - by injection H as <-.
  - destruct (insert c t) as [t1|] eqn:E; [|discriminate].
    eapply IH; [exact H|]. by eapply insert_keyed.
Qed.

Lemma route_keyed req (t : table) : keyed t -> keyed (serve (route req) t).2.
Proof.
  intros Hk. rewrite serve_table.
  destruct (route_table req t) as [-> | [cs Hcs]]; [done|].
  by eapply insert_all_keyed.
Qed.

(** In every table that requests build from the empty table, each row has a
    primary key and no two rows share one. *)
Theorem primary_keys_reachable reqs : keyed (serve_all reqs []).
Proof.
  assert (forall t, keyed t -> keyed (serve_all reqs t)) as H.
  { unfold serve_all. induction reqs as [|req reqs IH]; simpl; intros t Hk; [done|].
    by apply IH, route_keyed. }
  apply H. split; constructor.
Qed.

(** The id that a single add reports with status 201 is the primary key of
    the one row it appended, and no earlier row has that key. *)
Theorem single_add_reports_new_key data (t t' : table) m k :
  serve (add_certificate data) t = (Responded (jsonify (CreatedBody m k) 201), t') ->
  (Some k ∉ map id t) /\ exists x, t' = t ++ [x] /\ id x = Some k.
Proof.
  destruct (missing_data data) eqn:Hm.
  - rewrite (serve_add_certificate_missing _ _ Hm). discriminate.
  - destruct data as [d|]; [|discriminate].
    destruct (missing_data_false _ Hm) as (n & c & i & Hn & Hc & Hi).
    rewrite (serve_add_certificate_fields _ _ _ _ _ Hn Hc Hi).
    destruct (exists_by_code c t); [discriminate|].
    intros [= _ <- <-]. split; [apply next_id_fresh|]. by eexists.
Qed.

Lemma single_add_reports_new_key_witness :
  (Some 6 ∉ map id [mkCertificate (Some 5) "Z" "9" "imgZ"]) /\
  exists x,
    [mkCertificate (Some 5) "Z" "9" "imgZ"; mkCertificate (Some 6) "A" "1" "imgA"]
    = [mkCertificate (Some 5) "Z" "9" "imgZ"] ++ [x] /\ id x = Some 6.
Proof.
  apply (single_add_reports_new_key (Some (cert_json "A" "1" "imgA"))
           [mkCertificate (Some 5) "Z" "9" "imgZ"] _
           "Certificate created successfully" 6).
  vm_compute. reflexivity.
Defined.

(** * The handlers on any JSON body *)

(** ** On typed bodies they are the typed handlers *)

Lemma py_not_fmap {A B} (f : A -> B) (d : gmap string A) : py_not (f <$> d) = py_not d.
Proof. unfold py_not. rewrite map_to_list_fmap. by destruct (map_to_list d). Qed.

Lemma contains_fmap {A B} (f : A -> B) k (d : gmap string A) :
  contains k (f <$> d) = contains k d.
Proof. unfold contains. rewrite lookup_fmap. by destruct (d !! k). Qed.

Lemma all_in_object ks (d : gmap string json) :
  Py.all_in ks (JObject d) = Return (forallb (fun k => contains k d) ks).
Proof.
  induction ks as [|k ks IH]; simpl; [done|].
  destruct (contains k d); [exact IH | done].
Qed.

Lemma all_in_object_json d :
  Py.all_in required_keys (object_json d) = Return (all_keys_in d).
Proof.
  unfold object_json, all_keys_in, required_keys. rewrite all_in_object. simpl.
  by rewrite !contains_fmap.
Qed.

Lemma subscript_object_json k d v :
  d !! k = Some v -> Py.subscript k (object_json d) = Return (JString v).
Proof. intros H. unfold object_json. simpl. by rewrite lookup_fmap, H. Qed.

Lemma insert_certificate_values n c i (t : table) :
  Py.insert (mkValues (JString n) (JString c) (JString i)) t
  = match insert (mkCertificate None n c i) t with
    | Some t' => Return t'
    | None => Raise IntegrityError
    end.
Proof. reflexivity. Qed.

(** [add_certificate] is the JSON handler on a null body or an object with
    string values. *)
Lemma add_certificate_json data (t : table) :
  Py.add_certificate (body_json data) t = add_certificate data t.
Proof.
  destruct data as [d|]; [|reflexivity].
  unfold Py.add_certificate, add_certificate, body_json.
  change (Py.truthy (object_json d)) with (negb (py_not (JString <$> d))).
  rewrite py_not_fmap, negb_involutive. unfold missing_data.
  destruct (py_not d); [done|]. cbn [orb].
  unfold bind at 1. unfold lift at 1. rewrite all_in_object_json.
  destruct (all_keys_in d) eqn:Hall; [|done]. simpl negb. cbv iota.
  apply all_keys_in_true in Hall as (n & c & i & Hn & Hc & Hi).
  unfold bind, lift, getitem, ret.
  rewrite (subscript_object_json _ _ _ Hn), (subscript_object_json _ _ _ Hc),
    (subscript_object_json _ _ _ Hi), Hn, Hc, Hi.
  unfold Py.query_filter_by_code_first, query_filter_by_code_first. simpl.
  destruct (List.find _ t); [done|].
  unfold Py.session_add_commit, session_add_commit.
  rewrite insert_certificate_values. by destruct (insert _ t).
Qed.

Lemma collect_json items : forall acc (t : table),
  Py.collect (object_json <$> items) (certificate_values <$> acc) t
  = (Return (certificate_values <$> (acc ++ accepted t items)), t).
Proof.
  induction items as [|d rest IH]; intros acc t.
  - simpl. unfold ret. by rewrite app_nil_r.
  - cbn [fmap list_fmap Py.collect]. unfold bind at 1. unfold lift at 1.
    rewrite all_in_object_json. destruct (all_keys_in d) eqn:Hall.
    + pose proof Hall as (n & c & i & Hn & Hc & Hi)%all_keys_in_true.
      rewrite (accepted_cons_fields _ _ _ _ _ _ Hn Hc Hi). simpl negb. cbv iota.
      unfold bind, lift.
      rewrite (subscript_object_json _ _ _ Hn), (subscript_object_json _ _ _ Hc),
        (subscript_object_json _ _ _ Hi).
      unfold Py.query_filter_by_code_first, query_filter_by_code_first. simpl.
      destruct (List.find _ t) as [r|] eqn:Hf.
      * rewrite (find_code_some _ _ _ Hf). apply IH.
      * apply find_code_none in Hf. rewrite Hf.
        change [mkValues (JString n) (JString c) (JString i)]
          with (certificate_values <$> [mkCertificate None n c i]).
        rewrite <- fmap_app, IH. by rewrite <- app_assoc.
    + rewrite (accepted_cons_malformed _ _ _ Hall). simpl negb. cbv iota. apply IH.
Qed.

Lemma insert_all_certificate_values cs : forall (t : table),
  Py.insert_all (certificate_values <$> cs) t
  = match insert_all cs t with
    | Some t' => Return t'
    | None => Raise IntegrityError
    end.
Proof.
  induction cs as [|c cs IH]; intros t; [done|].
  cbn [fmap list_fmap Py.insert_all insert_all]. unfold certificate_values at 1.
  rewrite insert_certificate_values.
  change (insert (mkCertificate None (name c) (code c) (image_data c)) t)
    with (insert c t).
  destruct (insert c t) as [t1|]; [apply IH | done].
Qed.

(** [add_bulk_certificates] is the JSON handler on a null body or an object
    whose values are arrays of objects with string values. *)
Lemma add_bulk_certificates_json data (t : table) :
  Py.add_bulk_certificates (bulk_body_json data) t = add_bulk_certificates data t.
Proof.
  destruct data as [d|]; [|reflexivity].
  unfold Py.add_bulk_certificates, bulk_body_json.
  cbn [Py.truthy Py.contains]. rewrite py_not_fmap, negb_involutive, contains_fmap.
  destruct (missing_list (Some d)) eqn:Hm.
  - rewrite (add_bulk_missing _ _ Hm). simpl in Hm.
    destruct (py_not d); [done|]. simpl in Hm. unfold bind, lift. by rewrite Hm.
  - pose proof Hm as [Hp Hc]%orb_false_iff. apply negb_false_iff in Hc.
    destruct (missing_list_false _ Hm) as (l & Hl).
    rewrite (add_bulk_list _ _ _ Hl), Hp. cbn [negb].
    unfold bind, lift. rewrite Hc. cbn [negb Py.subscript].
    rewrite lookup_fmap, Hl. cbn [fmap option_fmap option_map Py.iter].
    change (@nil values) with (certificate_values <$> (@nil Certificate)).
    rewrite (collect_json l [] t). cbn [app].
    destruct (accepted t l) as [|a cs] eqn:Ha; [done|].
    unfold Py.bulk_save_objects_commit.
    destruct (certificate_values <$> a :: cs) as [|v vs] eqn:E; [discriminate|].
    cbv beta. rewrite <- E, insert_all_certificate_values.
    destruct (insert_all (a :: cs) t); [|done].
    unfold ret. by rewrite length_fmap.
Qed.

(** ** Single add on any JSON body: missing fields *)







(** ** Bulk import on any JSON body: the missing list *)





(** ** Bulk import on any JSON body: nothing to add *)




